(** * SOFA scoring over FHIR observations: a shallow embedding

    The development follows the four source files of the repository:
    [utils.py] (time parsing, windowed lookup, FiO2 normalisation),
    [scoring.py] (the six organ sub-scores), [fhir_io.py] (flattening of
    Observation resources) and [main.py] (the per-patient loop).

    Conventions of the embedding:
    - a Python [float] is a [pyfloat]: an exact rational, an infinity or
      NaN.  Rounding and signed zeros are not modelled; comparisons and
      truthiness follow IEEE (every comparison with NaN is false);
    - [None] is [None] of [option];
    - an aware [datetime] is its instant, in microseconds since the epoch;
    - a [dict] is a [gmap]; a DataFrame is the list of its rows;
    - an exception is the [Raise] case of [result]. *)

From Stdlib Require Import QArith Lqa ZArith String Ascii List Bool Lia.
From stdpp Require Import gmap strings list fin_maps sorting.

Local Open Scope Z_scope.

(* ===================================================================== *)
(** ** Python floats *)
(* ===================================================================== *)

Inductive pyfloat : Type :=
  | Fin (q : Q)
  | PInf
  | NInf
  | NaN.

Coercion Fin : Q >-> pyfloat.

Module PyFloat.

Definition Qlt_bool (a b : Q) : bool := negb (Qle_bool b a).

(** [a <= b] *)
Definition fle (a b : pyfloat) : bool :=
  match a, b with
  | NaN, _ | _, NaN => false
  | NInf, _ => true
  | _, PInf => true
  | Fin x, Fin y => Qle_bool x y
  | PInf, _ => false
  | Fin _, NInf => false
  end.

(** [a < b] *)
Definition flt (a b : pyfloat) : bool :=
  match a, b with
  | NaN, _ | _, NaN => false
  | NInf, NInf => false
  | NInf, _ => true
  | PInf, _ => false
  | Fin x, Fin y => Qlt_bool x y
  | Fin _, PInf => true
  | Fin _, NInf => false
  end.

Definition fge (a b : pyfloat) : bool := fle b a.
Definition fgt (a b : pyfloat) : bool := flt b a.

(** [a == b] *)
Definition feqb (a b : pyfloat) : bool :=
  match a, b with
  | Fin x, Fin y => Qeq_bool x y
  | PInf, PInf => true
  | NInf, NInf => true
  | _, _ => false
  end.

(** [math.isfinite] *)
Definition isfinite (a : pyfloat) : bool :=
  match a with Fin _ => true | _ => false end.

(** [bool(a)]: only zero is falsy; NaN and the infinities are truthy. *)
Definition ftruthy (a : pyfloat) : bool :=
  match a with Fin x => negb (Qeq_bool x 0) | _ => true end.

(** [pd.notna] on a float. *)
Definition notna (a : pyfloat) : bool :=
  match a with NaN => false | _ => true end.

Definition fneg (a : pyfloat) : pyfloat :=
  match a with Fin x => Fin (- x) | PInf => NInf | NInf => PInf | NaN => NaN end.

(** [a / b].  Python raises [ZeroDivisionError] when [b] is zero; every
    division of the program is behind a truthiness test of the divisor
    or divides by a non-zero literal, and the model gives NaN there. *)
Definition fdiv (a b : pyfloat) : pyfloat :=
  match a, b with
  | NaN, _ | _, NaN => NaN
  | Fin x, Fin y => if Qeq_bool y 0 then NaN else Fin (x / y)
  | Fin _, (PInf | NInf) => Fin 0
  | (PInf | NInf), (PInf | NInf) => NaN
  | PInf, Fin y => if Qeq_bool y 0 then NaN else if Qlt_bool y 0 then NInf else PInf
  | NInf, Fin y => if Qeq_bool y 0 then NaN else if Qlt_bool y 0 then PInf else NInf
  end.

(** [a + b] *)
Definition fadd (a b : pyfloat) : pyfloat :=
  match a, b with
  | NaN, _ | _, NaN => NaN
  | Fin x, Fin y => Fin (x + y)
  | PInf, NInf | NInf, PInf => NaN
  | PInf, _ | _, PInf => PInf
  | NInf, _ | _, NInf => NInf
  end.

(** [a * b] *)
Definition fmul (a b : pyfloat) : pyfloat :=
  match a, b with
  | NaN, _ | _, NaN => NaN
  | Fin x, Fin y => Fin (x * y)
  | Fin x, inf | inf, Fin x =>
      if Qeq_bool x 0 then NaN
      else if Qlt_bool x 0 then fneg inf else inf
  | PInf, PInf | NInf, NInf => PInf
  | PInf, NInf | NInf, PInf => NInf
  end.

(** Equality of floats as values: rationals up to [Qeq]. *)
Definition feq (a b : pyfloat) : Prop :=
  match a, b with
  | Fin x, Fin y => (x == y)%Q
  | PInf, PInf | NInf, NInf | NaN, NaN => True
  | _, _ => False
  end.

Definition ofeq (a b : option pyfloat) : Prop :=
  match a, b with
  | Some x, Some y => feq x y
  | None, None => True
  | _, _ => False
  end.

End PyFloat.
Export PyFloat.

Declare Scope float_scope.
Delimit Scope float_scope with F.
Notation "x <? y" := (flt x y) : float_scope.
Notation "x <=? y" := (fle x y) : float_scope.
Notation "x >? y" := (fgt x y) : float_scope.
Notation "x >=? y" := (fge x y) : float_scope.
Notation "x =? y" := (feqb x y) : float_scope.
Notation "x / y" := (fdiv x y) : float_scope.
Notation "x + y" := (fadd x y) : float_scope.
Notation "x * y" := (fmul x y) : float_scope.
Infix "≃" := ofeq (at level 70, no associativity).

(** [o is not None and test(o)] *)
Definition known_and {A} (test : A -> bool) (o : option A) : bool :=
  match o with Some x => test x | None => false end.

(* ===================================================================== *)
(** ** scoring.py *)
(* ===================================================================== *)

Module Scoring.
Local Open Scope Q_scope.
Local Open Scope float_scope.

(** The PaO2/FiO2 half of [score_resp]. *)
Definition score_resp_pf (pf : pyfloat) : option Z :=
  if pf >=? 400 then Some 0%Z
  else if (pf <? 400) && (pf >=? 300) then Some 1%Z
  else if (pf <? 300) && (pf >=? 200) then Some 2%Z
  else if (pf <? 200) && (pf >=? 100) then Some 3%Z
  else if pf <? 100 then Some 4%Z
  else None.

(** The SpO2/FiO2 half of [score_resp]. *)
Definition score_resp_sf (sf : pyfloat) (on_resp_support : bool) : option Z :=
  if sf >? 302 then Some 0%Z
  else if (sf <? 302) && (sf >=? 221) then Some 1%Z
  else if (sf <? 221) && (sf >=? 142) then Some 2%Z
  else if sf <? 142 then Some (if on_resp_support then 3%Z else 2%Z)
  else if sf <? 67 then Some (if on_resp_support then 4%Z else 3%Z)
  else None.

Definition score_resp (pao2_fio2 spo2_fio2 : option pyfloat)
    (on_resp_support : bool) : option Z :=
  if known_and isfinite pao2_fio2 then
    match pao2_fio2 with
    | Some pf => score_resp_pf pf
    | None => None
    end
  else if negb (known_and isfinite spo2_fio2) then None
  else
    match spo2_fio2 with
    | Some sf => score_resp_sf sf on_resp_support
    | None => None
    end.

Definition score_coag (platelets_x10e3_per_uL : option pyfloat) : option Z :=
  match platelets_x10e3_per_uL with
  | None => None
  | Some v =>
      if v >=? 150 then Some 0%Z
      else if (v <? 150) && (v >=? 100) then Some 1%Z
      else if (v <? 100) && (v >=? 50) then Some 2%Z
      else if (v <? 50) && (v >=? 20) then Some 3%Z
      else if v <? 20 then Some 4%Z
      else None
  end.

Definition score_liver (bili_mg_dl : option pyfloat) : option Z :=
  match bili_mg_dl with
  | None => None
  | Some v =>
      if v <? 1.2 then Some 0%Z
      else if (1.2 <=? v) && (v <=? 1.9) then Some 1%Z
      else if (2.0 <=? v) && (v <=? 5.9) then Some 2%Z
      else if (6.0 <=? v) && (v <=? 11.9) then Some 3%Z
      else if v >=? 12.0 then Some 4%Z
      else None
  end.

(** [if pressor:] a dict is truthy when it is not empty. *)
Definition dict_truthy {V} (d : gmap string V) : bool :=
  negb (Nat.eqb (size d) 0).

Definition score_cardio (map_mmHg : option pyfloat)
    (pressor : option (gmap string pyfloat)) : option Z :=
  let on_map :=
    match map_mmHg with
    | None => None
    | Some m => Some (if m >=? 70 then 0%Z else 1%Z)
    end in
  match pressor with
  | None => on_map
  | Some p =>
      if dict_truthy p then
        match p !! "dobutamine"%string with
        | Some _ => Some 2%Z
        | None =>
            let dop := p !! "dopamine"%string in
            let ne := p !! "norepinephrine"%string in
            let epi := p !! "epinephrine"%string in
            if known_and (fun d => d >? 15) dop
               || known_and (fun n => n >? 0.1) ne
               || known_and (fun e => e >? 0.1) epi
            then Some 4%Z
            else if known_and (fun d => (5.1 <=? d) && (d <=? 15)) dop
                    || known_and (fun n => (0.0 <? n) && (n <=? 0.1)) ne
                    || known_and (fun e => (0.0 <? e) && (e <=? 0.1)) epi
            then Some 3%Z
            else if known_and (fun d => d <? 5) dop then Some 2%Z
            else on_map
        end
      else on_map
  end.

Definition score_cns (gcs_total : option pyfloat) : option Z :=
  match gcs_total with
  | None => None
  | Some v =>
      if v =? 15 then Some 0%Z
      else if (13 <=? v) && (v <=? 14) then Some 1%Z
      else if (10 <=? v) && (v <=? 12) then Some 2%Z
      else if (6 <=? v) && (v <=? 9) then Some 3%Z
      else if v <? 6 then Some 4%Z
      else None
  end.

Definition score_renal (creatinine_mg_dl : option pyfloat) : option Z :=
  match creatinine_mg_dl with
  | None => None
  | Some v =>
      if v <? 1.2 then Some 0%Z
      else if (1.2 <=? v) && (v <=? 1.9) then Some 1%Z
      else if (2.0 <=? v) && (v <=? 3.4) then Some 2%Z
      else if (3.5 <=? v) && (v <=? 4.9) then Some 3%Z
      else if v >=? 5.0 then Some 4%Z
      else None
  end.

End Scoring.

(* ===================================================================== *)
(** ** Python strings, exceptions and datetimes *)
(* ===================================================================== *)

Module PyStr.
Local Open Scope string_scope.

(** [k in s] *)
Fixpoint contains (k s : string) : bool :=
  String.prefix k s ||
  match s with
  | EmptyString => false
  | String _ s' => contains k s'
  end.

(** [s.endswith(suffix)] *)
Definition endswith (s suffix : string) : bool :=
  String.prefix (String.rev suffix) (String.rev s).

(** [s.replace(old, new)] for a one-character [old]. *)
Fixpoint replace (s : string) (old : ascii) (new : string) : string :=
  match s with
  | EmptyString => EmptyString
  | String c s' =>
      if Ascii.eqb c old then new ++ replace s' old new
      else String c (replace s' old new)
  end.

Definition lower_ascii (c : ascii) : ascii :=
  let n := nat_of_ascii c in
  if (65 <=? n)%nat && (n <=? 90)%nat then ascii_of_nat (n + 32) else c.

(** [s.lower()] on ASCII text. *)
Fixpoint lower (s : string) : string :=
  match s with
  | EmptyString => EmptyString
  | String c s' => String (lower_ascii c) (lower s')
  end.

(** The ASCII characters for which [str.isspace] holds. *)
Definition isspace (c : ascii) : bool :=
  let n := nat_of_ascii c in
  ((9 <=? n)%nat && (n <=? 13)%nat) || ((28 <=? n)%nat && (n <=? 32)%nat).

Fixpoint lstrip (s : string) : string :=
  match s with
  | EmptyString => EmptyString
  | String c s' => if isspace c then lstrip s' else s
  end.

(** [s.strip()] *)
Definition strip (s : string) : string :=
  String.rev (lstrip (String.rev (lstrip s))).

(** [bool(s)] for an optional string: [None] and [''] are falsy. *)
Definition truthy (s : option string) : bool :=
  match s with
  | Some (String _ _) => true
  | _ => false
  end.

(** [a or b] on optional strings. *)
Definition or_else (a b : option string) : option string :=
  if truthy a then a else b.

(** [s in l] *)
Definition mem (s : string) (l : list string) : bool :=
  existsb (String.eqb s) l.

End PyStr.

Inductive exn : Type := ValueError.

Inductive result (A : Type) : Type :=
  | Ok (a : A)
  | Raise (e : exn).
Arguments Ok {A} a.
Arguments Raise {A} e.

#[global] Instance result_ret : MRet result := fun A a => Ok a.
#[global] Instance result_bind : MBind result := fun A B k r =>
  match r with
  | Ok a => k a
  | Raise e => Raise e
  end.

(** [try: body  except Exception: handler] *)
Definition try_except {A} (body : result A) (handler : exn -> result A) : result A :=
  match body with
  | Ok a => Ok a
  | Raise e => handler e
  end.

(** A [datetime]: the wall-clock reading in microseconds since
    1970-01-01T00:00:00 and the UTC offset of its [tzinfo] in microseconds
    ([None] for a naive datetime). *)
Record datetime : Type := mk_datetime {
  wall : Z;
  tzinfo : option Z;
}.

Definition timezone_utc : option Z := Some 0.

(** [d.replace(tzinfo=tz)] *)
Definition replace_tzinfo (d : datetime) (tz : option Z) : datetime :=
  {| wall := wall d; tzinfo := tz |}.

(** The instant of a datetime on the UTC time line; a naive datetime,
    which a string without offset gives, is read as UTC. *)
Definition instant (d : datetime) : Z :=
  wall d - default 0 (tzinfo d).

(** [timedelta(hours=h)] and [timedelta(minutes=m)], in microseconds. *)
Definition timedelta_hours (h : Z) : Z := h * 3600000000.
Definition timedelta_minutes (m : Z) : Z := m * 60000000.

(* ===================================================================== *)
(** ** utils.py *)
(* ===================================================================== *)

Module Utils.
Import PyStr.

Definition ISO_FMT : string := "%Y-%m-%dT%H:%M:%SZ".

Section ParseTime.
(** The two parsers of the [datetime] library. *)
Variable strptime : string -> string -> result datetime.
Variable fromisoformat : string -> result datetime.

Definition parse_time (ts : string) : result datetime :=
  try_except
    (if endswith ts "Z" then
       d ← strptime ts ISO_FMT;
       mret (replace_tzinfo d timezone_utc)
     else fromisoformat (replace ts "Z" "+00:00"))
    (fun _ => fromisoformat (replace ts "Z" "+00:00")).
End ParseTime.

(** One iteration of the loop of [latest_within] on the pair
    [(latest_t, latest_val)]. *)
Definition latest_step {V} (window_start t : Z)
    (st : option Z * option V) (rec : Z * V) : option Z * option V :=
  let '(latest_t, latest_val) := st in
  let '(rt, val) := rec in
  if (window_start <=? rt) && (rt <=? t) then
    if match latest_t with None => true | Some lt => rt >? lt end
    then (Some rt, Some val)
    else (latest_t, latest_val)
  else (latest_t, latest_val).

Definition latest_within {V} (records : list (Z * V)) (t : Z)
    (window_hours : Z) : option V :=
  let window_start := t - timedelta_hours window_hours in
  snd (fold_left (latest_step window_start t) records (None, None)).

Definition norm_fio2 (val : option pyfloat) (unit : option string)
    : option pyfloat :=
  match val with
  | None => None
  | Some v =>
      if truthy unit
         && mem (lower (strip (default EmptyString unit)))
                ["%"; "percent"; "perc"]%string
      then Some (v / 100%Q)%F
      else if (v >? 1.5%Q)%F then Some (v / 100%Q)%F
      else Some v
  end.

(** [safe_float] on a decoded JSON number or null. *)
Definition safe_float (x : option pyfloat) : option pyfloat :=
  match x with
  | None => None
  | Some v => Some v
  end.

(** [sorted(set(times))] *)
Definition round_times_to_observation_ticks (times : list Z) : list Z :=
  let uniq := merge_sort Z.le (elements (list_to_set times : gset Z)) in
  uniq.

Definition VENT_KEYWORDS : list string := [
  "ventilator"; "mechanical ventilation"; "intubated"; "cpap"; "bipap";
  "high flow"; "oxygen therapy"; "o2 device"; "respiratory support"
]%string.

Definition looks_like_resp_support (text : string) : bool :=
  if negb (truthy (Some text)) then false
  else
    let s := lower text in
    existsb (fun k => contains k s) VENT_KEYWORDS.

End Utils.

(* ===================================================================== *)
(** ** The parsers of the datetime library *)
(* ===================================================================== *)

(** A reference model of [datetime.strptime] at [ISO_FMT] and of
    [datetime.fromisoformat] on the grammar that [datetime.isoformat]
    writes (YYYY-MM-DD, then optionally a separator, HH[:MM[:SS[.fff[fff]]]]
    and an offset +HH:MM[:SS]).  [parse_time] is stated over any pair of
    parsers; this model instantiates it on concrete strings. *)
Module PyDatetime.
Local Open Scope string_scope.
Local Open Scope Z_scope.

Definition digit (c : ascii) : option Z :=
  let n := nat_of_ascii c in
  if (48 <=? n)%nat && (n <=? 57)%nat then Some (Z.of_nat (n - 48)) else None.

(** Exactly [n] decimal digits at the head of [s]: their value, and the
    rest of [s]. *)
Fixpoint digits (n : nat) (acc : Z) (s : string) : option (Z * string) :=
  match n with
  | O => Some (acc, s)
  | S n' =>
      match s with
      | String c s' =>
          match digit c with
          | Some d => digits n' (10 * acc + d) s'
          | None => None
          end
      | EmptyString => None
      end
  end.

(** One literal character of the format, compared without case as
    [strptime] does. *)
Definition lit (c : ascii) (s : string) : option string :=
  match s with
  | String c' s' =>
      if Ascii.eqb (PyStr.lower_ascii c) (PyStr.lower_ascii c') then Some s' else None
  | EmptyString => None
  end.

(** A numeric directive of [strptime]: the two-digit alternatives of its
    pattern are tried first, then the one-digit alternative. *)
Definition field (two one : Z -> bool) (s : string) : option (Z * string) :=
  match digits 2 0 s with
  | Some (v, rest) =>
      if two v then Some (v, rest)
      else match digits 1 0 s with
           | Some (v1, rest1) => if one v1 then Some (v1, rest1) else None
           | None => None
           end
  | None =>
      match digits 1 0 s with
      | Some (v1, rest1) => if one v1 then Some (v1, rest1) else None
      | None => None
      end
  end.

Definition between (lo hi v : Z) : bool := (lo <=? v) && (v <=? hi).

Definition is_leap (y : Z) : bool :=
  (y mod 4 =? 0) && (negb (y mod 100 =? 0) || (y mod 400 =? 0)).

Definition days_in_month (y m : Z) : Z :=
  if m =? 2 then (if is_leap y then 29 else 28)
  else if (m =? 4) || (m =? 6) || (m =? 9) || (m =? 11) then 30
  else 31.

(** Days from 1970-01-01 to the given civil date. *)
Definition days_from_civil (y m d : Z) : Z :=
  let y' := if m <=? 2 then y - 1 else y in
  let era := y' / 400 in
  let yoe := y' - era * 400 in
  let mp := if m >? 2 then m - 3 else m + 9 in
  let doy := (153 * mp + 2) / 5 + d - 1 in
  let doe := yoe * 365 + yoe / 4 - yoe / 100 + doy in
  era * 146097 + doe - 719468.

(** The constructor [datetime(y, mo, d, h, mi, s, us, tzinfo)]: it
    raises [ValueError] on a field out of range. *)
Definition make_datetime (y mo d h mi s us : Z) (tz : option Z)
    : result datetime :=
  if between 1 9999 y && between 1 12 mo && between 1 (days_in_month y mo) d
     && between 0 23 h && between 0 59 mi && between 0 59 s
     && between 0 999999 us
  then Ok {| wall := (((days_from_civil y mo d * 24 + h) * 60 + mi) * 60 + s)
                      * 1000000 + us;
             tzinfo := tz |}
  else Raise ValueError.

(** [datetime.strptime(s, "%Y-%m-%dT%H:%M:%SZ")] *)
Definition strptime_iso (s : string) : result datetime :=
  let fields :=
    '(y, r) ← digits 4 0 s;
    r ← lit "-" r;
    '(mo, r) ← field (between 1 12) (between 1 9) r;
    r ← lit "-" r;
    '(d, r) ← match field (between 1 31) (between 1 9) r with
              | Some x => Some x
              | None => r' ← lit " " r; field (fun _ => false) (between 1 9) r'
              end;
    r ← lit "T" r;
    '(h, r) ← field (between 0 23) (between 0 9) r;
    r ← lit ":" r;
    '(mi, r) ← field (between 0 59) (between 0 9) r;
    r ← lit ":" r;
    '(sec, r) ← field (between 0 61) (between 0 9) r;
    r ← lit "Z" r;
    if String.eqb r "" then Some (y, mo, d, h, mi, sec) else None in
  match fields with
  | Some (y, mo, d, h, mi, sec) => make_datetime y mo d h mi sec 0 None
  | None => Raise ValueError
  end.

(** Only the format the program uses is modelled. *)
Definition strptime (s fmt : string) : result datetime :=
  if String.eqb fmt "%Y-%m-%dT%H:%M:%SZ" then strptime_iso s
  else Raise ValueError.

(** HH[:MM[:SS[.fff[fff]]]], the whole of [s]. *)
Definition parse_hh_mm_ss_ff (s : string) : option (Z * Z * Z * Z) :=
  '(h, r) ← digits 2 0 s;
  match r with
  | "" => Some (h, 0, 0, 0)
  | String ":" r =>
      '(mi, r) ← digits 2 0 r;
      match r with
      | "" => Some (h, mi, 0, 0)
      | String ":" r =>
          '(sec, r) ← digits 2 0 r;
          match r with
          | "" => Some (h, mi, sec, 0)
          | String "." r =>
              if (String.length r =? 3)%nat then
                '(f, _) ← digits 3 0 r; Some (h, mi, sec, f * 1000)
              else if (String.length r =? 6)%nat then
                '(f, _) ← digits 6 0 r; Some (h, mi, sec, f)
              else None
          | _ => None
          end
      | _ => None
      end
  | _ => None
  end.

(** Split a time string at its first sign: the time, and the sign with
    the offset text when there is one. *)
Fixpoint split_offset (s : string) : string * option (Z * string) :=
  match s with
  | EmptyString => (EmptyString, None)
  | String c s' =>
      if Ascii.eqb c "+" then (EmptyString, Some (1, s'))
      else if Ascii.eqb c "-" then (EmptyString, Some (-1, s'))
      else let '(t, o) := split_offset s' in (String c t, o)
  end.

(** The offset +HH:MM[:SS[.ffffff]], in microseconds; [timezone]
    refuses an offset of a day or more. *)
Definition parse_offset (o : option (Z * string)) : option (option Z) :=
  match o with
  | None => Some None
  | Some (sign, s) =>
      if (String.length s <? 5)%nat then None
      else
        '(h, mi, sec, us) ← parse_hh_mm_ss_ff s;
        let off := sign * (((h * 60 + mi) * 60 + sec) * 1000000 + us) in
        if (Z.abs off <? 86400000000) && between 0 59 mi && between 0 59 sec
        then Some (Some off) else None
  end.

Definition fromisoformat (s : string) : result datetime :=
  let fields :=
    '(y, r) ← digits 4 0 s;
    r ← lit "-" r;
    '(mo, r) ← digits 2 0 r;
    r ← lit "-" r;
    '(d, r) ← digits 2 0 r;
    match r with
    | "" => Some (y, mo, d, (0, 0, 0, 0), None)
    | String _ tstr =>
        let '(t, o) := split_offset tstr in
        hmsf ← parse_hh_mm_ss_ff t;
        tz ← parse_offset o;
        Some (y, mo, d, hmsf, tz)
    end in
  match fields with
  | Some (y, mo, d, (h, mi, sec, us), tz) => make_datetime y mo d h mi sec us tz
  | None => Raise ValueError
  end.

End PyDatetime.

(* ===================================================================== *)
(** ** fhir_io.py *)
(* ===================================================================== *)

Module FhirIo.
Import PyStr.
Local Open Scope string_scope.

(** *** The decoded Observation resource *)

Record coding : Type := {
  coding_code : option string;
  coding_display : option string;
}.

(** [o['code']]: the list under ['coding'] (empty when absent) and
    ['text']. *)
Record codeable_concept : Type := {
  cc_coding : list coding;
  cc_text : option string;
}.

Record quantity : Type := {
  q_value : option pyfloat;
  q_unit : option string;
  q_code : option string;
}.

Record observation : Type := {
  code : option codeable_concept;
  valueQuantity : option quantity;
  effectiveDateTime : option string;
  issued : option string;
}.

(** *** The classification tables *)

Definition LOINC_MAP : gmap string (string * string) :=
  list_to_map [
    ("2703-7", ("PaO2", "mmHg"));
    ("3150-0", ("FiO2", ""));
    ("59408-5", ("SpO2", "%"));
    ("2708-6", ("SpO2", "%"));
    ("8478-0", ("MAP", "mmHg"));
    ("777-3", ("Platelets", "10^3/uL"));
    ("1975-2", ("Bilirubin", "mg/dL"));
    ("2160-0", ("Creatinine", "mg/dL"));
    ("9269-2", ("GCS", ""))
  ].

(** A dict read in insertion order: an association list. *)
Definition DISPLAY_KEYWORDS : list (string * list string) := [
  ("PaO2", ["pao2"; "partial pressure oxygen"; "arterial oxygen"]);
  ("FiO2", ["fio2"; "inspired oxygen"; "fraction of inspired oxygen"; "inhaled oxygen"]);
  ("SpO2", ["spo2"; "oxygen saturation"; "pulse oximetry"]);
  ("MAP", ["map"; "mean arterial pressure"]);
  ("Platelets", ["platelet"]);
  ("Bilirubin", ["bilirubin"]);
  ("Creatinine", ["creatinine"]);
  ("GCS", ["glasgow coma"; "gcs total"; "gcs score"])
].

(** *** Rows *)

(** The dict [_obs_entry_to_row] returns. *)
Record entry : Type := {
  e_metric : string;
  e_value : pyfloat;
  e_unit : option string;
  e_effective : datetime;
}.

(** A row of the observation frame; [effective] is the instant of the
    parsed time. *)
Record obs_row : Type := {
  patient_id : string;
  metric : string;
  value : pyfloat;
  unit : option string;
  effective : Z;
}.

(** The first metric of [DISPLAY_KEYWORDS] one of whose keywords occurs
    in [text]: the [for ... break] loop. *)
Fixpoint keyword_metric (table : list (string * list string)) (text : string)
    : option string :=
  match table with
  | [] => None
  | (m, kws) :: table' =>
      if existsb (fun k => contains k text) kws then Some m
      else keyword_metric table' text
  end.

(** The first half of [_obs_entry_to_row]: the metric of the first
    coding, by its code in [LOINC_MAP] or else by a keyword of its
    display text. *)
Definition resolve_metric (o : observation) : option string :=
  let codings := match code o with Some c => cc_coding c | None => [] end in
  let o_text := match code o with Some c => cc_text c | None => None end in
  let '(code, display) :=
    match codings with
    | c0 :: _ => (coding_code c0, or_else (coding_display c0) o_text)
    | [] => (None, None)
    end in
  match (if truthy code then LOINC_MAP !! default "" code else None) with
  | Some entry => Some (fst entry)
  | None =>
      let text := lower (default "" display ++ " " ++ default "" o_text) in
      keyword_metric DISPLAY_KEYWORDS text
  end.

(** [df.sort_values(...)] by the time [key] of a row: a stable sort.
    (Every row of one frame has the same [patient_id], so the sort on
    [['patient_id', 'effective']] is the sort on [effective].) *)
Fixpoint insert_sorted {A} (key : A -> Z) (r : A) (df : list A) : list A :=
  match df with
  | [] => [r]
  | x :: df' =>
      if (key r <=? key x)%Z then r :: df
      else x :: insert_sorted key r df'
  end.

Definition sort_values {A} (key : A -> Z) (df : list A) : list A :=
  foldr (insert_sorted key) [] df.

(** [df[df['metric'] == m][['effective', 'value']]] *)
Definition select_metric (df : list obs_row) (m : string) : list (Z * pyfloat) :=
  map (fun r => (effective r, value r))
      (List.filter (fun r => String.eqb (metric r) m) df).

(** A row of the frame [medications_to_df] returns; [med_rate] is the
    raw rate, absent or NaN when the record had none. *)
Record med_row : Type := {
  med_patient_id : string;
  med_pressor : string;
  med_rate : option pyfloat;
  med_unit : option string;
  med_effective : Z;
}.

(** *** The decoded MedicationAdministration resource *)

(** One of the rate fields of ['dosage'] when it is a dict: [rq_value] is
    [None] when the dict has no ['value'] key, [Some None] when the key
    holds null, and a number otherwise. *)
Record rate_quantity : Type := {
  rq_value : option (option pyfloat);
  rq_unit : option string;
  rq_code : option string;
}.

(** [m['dosage']]; a field that is absent, null or not a dict is [None]. *)
Record dosage_fields : Type := {
  doseRateQuantity : option rate_quantity;
  rateQuantity : option rate_quantity;
  rate : option rate_quantity;
}.

Record medication : Type := {
  medicationCodeableConcept : option codeable_concept;
  dosage : option dosage_fields;
  med_effectiveDateTime : option string;
}.

Definition PRESSOR_KEYWORDS : list (string * list string) := [
  ("norepinephrine", ["norepinephrine"; "levophed"]);
  ("epinephrine", ["epinephrine"; "adrenaline"]);
  ("dopamine", ["dopamine"]);
  ("dobutamine", ["dobutamine"])
].

(** The dict [med_to_pressor] returns. *)
Record pressor_entry : Type := {
  pe_pressor : string;
  pe_rate : option pyfloat;
  pe_unit : option string;
  pe_effective : datetime;
}.

(** The loop of [med_to_pressor] over the keys ['doseRateQuantity'],
    ['rateQuantity'], ['rate']: the rate and unit of the first field that
    is a dict with a ['value'] key. *)
Fixpoint first_rate (fields : list (option rate_quantity))
    : option pyfloat * option string :=
  match fields with
  | [] => (None, None)
  | q :: fields' =>
      match q ≫= rq_value with
      | Some v => (v, or_else (q ≫= rq_unit) (q ≫= rq_code))
      | None => first_rate fields'
      end
  end.

(** The text [med_to_pressor] classifies: the display of the first
    coding, or else its code, in lower case. *)
Definition pressor_text (m : medication) : string :=
  let codings :=
    match medicationCodeableConcept m with Some c => cc_coding c | None => [] end in
  let '(display, code) :=
    match codings with
    | c0 :: _ => (coding_display c0, coding_code c0)
    | [] => (None, None)
    end in
  lower (default "" (or_else display code)).

Section Extract.
(** The parsers of the datetime library, which [parse_time] calls. *)
Variable strptime : string -> string -> result datetime.
Variable fromisoformat : string -> result datetime.
(** [pd.merge_asof(left, right, on='effective', direction='nearest',
    tolerance=...)]: for every left row its time, its value and the
    value of the matched right row (NaN without a match). *)
Variable merge_asof :
  list (Z * pyfloat) -> list (Z * pyfloat) -> Z -> list (Z * pyfloat * pyfloat).

Definition _obs_entry_to_row (o : observation) : result (option entry) :=
  let metric := resolve_metric o in
  if negb (truthy metric) then Ok None
  else
    let val := Utils.safe_float (valueQuantity o ≫= q_value) in
    let unit := or_else (valueQuantity o ≫= q_unit) (valueQuantity o ≫= q_code) in
    let t := or_else (effectiveDateTime o) (issued o) in
    match val with
    | Some v =>
        if negb (truthy t) then Ok None
        else
          d ← Utils.parse_time strptime fromisoformat (default "" t);
          Ok (Some {| e_metric := default "" metric; e_value := v;
                      e_unit := unit; e_effective := d |})
    | None => Ok None
    end.

(** The loop of [observations_to_df] that collects the rows. *)
Fixpoint collect_rows (observations : list observation) (subject : string)
    : result (list obs_row) :=
  match observations with
  | [] => Ok []
  | o :: rest =>
      r ← _obs_entry_to_row o;
      rows ← collect_rows rest subject;
      Ok (match r with
          | Some e =>
              {| patient_id := subject; metric := e_metric e;
                 value := e_value e; unit := e_unit e;
                 effective := instant (e_effective e) |} :: rows
          | None => rows
          end)
  end.

Definition observations_to_df (observations : list observation)
    (subject : string) : result (list obs_row) :=
  rows ← collect_rows observations subject;
  let df := rows in
  match df with
  | [] => Ok df
  | _ :: _ =>
      let df := sort_values effective df in
      if existsb (fun r => mem (metric r) ["8480-6"; "8462-4"]) df then
        let sys_df := select_metric df "8480-6" in
        let dia_df := select_metric df "8462-4" in
        let merged :=
          merge_asof (sort_values fst sys_df) (sort_values fst dia_df)
                     (timedelta_minutes 5) in
        match merged with
        | [] => Ok df
        | _ :: _ =>
            Ok (df ++
                map (fun '(t, sys, dia) =>
                       {| patient_id := subject; metric := "MAP";
                          value := ((sys + 2%Q * dia) / 3%Q)%F;
                          unit := Some "mmHg"; effective := t |})
                    merged)%list
        end
      else Ok df
  end.

(** [med_to_pressor]: no dict when the text names no pressor or when the
    record has no (non-empty) effectiveDateTime; the time is parsed last. *)
Definition med_to_pressor (m : medication) : result (option pressor_entry) :=
  let text := pressor_text m in
  let which := keyword_metric PRESSOR_KEYWORDS text in
  if negb (truthy which) then Ok None
  else
    let '(rate, unit) :=
      match dosage m with
      | Some d => first_rate [doseRateQuantity d; rateQuantity d; rate d]
      | None => (None, None)
      end in
    let t := med_effectiveDateTime m in
    if negb (truthy t) then Ok None
    else
      d ← Utils.parse_time strptime fromisoformat (default "" t);
      Ok (Some {| pe_pressor := default "" which; pe_rate := rate;
                  pe_unit := unit; pe_effective := d |}).

(** The loop of [medications_to_df] that collects the rows. *)
Fixpoint collect_meds (meds : list medication) (subject : string)
    : result (list med_row) :=
  match meds with
  | [] => Ok []
  | m :: rest =>
      pr ← med_to_pressor m;
      rows ← collect_meds rest subject;
      Ok (match pr with
          | Some e =>
              {| med_patient_id := subject; med_pressor := pe_pressor e;
                 med_rate := pe_rate e; med_unit := pe_unit e;
                 med_effective := instant (pe_effective e) |} :: rows
          | None => rows
          end)
  end.

Definition medications_to_df (meds : list medication) (subject : string)
    : result (list med_row) :=
  rows ← collect_meds meds subject;
  let df := rows in
  match df with
  | [] => Ok df
  | _ :: _ => Ok (sort_values med_effective df)
  end.

End Extract.

End FhirIo.

(* ===================================================================== *)
(** ** main.py *)
(* ===================================================================== *)

Module Main.
Import PyStr Utils Scoring FhirIo.
Local Open Scope string_scope.

Definition STRICT : bool := true.
Definition WINDOW_HOURS : Z := if STRICT then 6 else 24.
Definition DEFAULT_FIO2 : pyfloat := Fin 0.21.

(** A row of the result frame. *)
Record scored_row : Type := {
  patient_id : string;
  sofa_score_datetime : Z;
  sofa_score : Z;
}.

(** The lines [compute_patient_sofa] prints. *)
Inductive message : Type :=
  | Computing (subject : string)
  | Counts (observations meds : nat)
  | NoObservations
  | Missing (t : Z) (missing : list string)
  | Calculated (rows : nat) (subject : string).

Definition METRICS : list string :=
  ["PaO2"; "SpO2"; "FiO2"; "MAP"; "Platelets"; "Bilirubin"; "Creatinine"; "GCS"].

(** [metrics[m] = list(zip(sub["effective"], sub["value"]))] for every
    metric name. *)
Definition build_metrics (obs_df : list obs_row)
    : gmap string (list (Z * pyfloat)) :=
  foldl (fun metrics m =>
           let sub := List.filter (fun r => String.eqb (metric r) m) obs_df in
           <[m := map (fun r => (effective r, value r)) sub]> metrics)
        ∅ METRICS.

(** [metrics.get(m, [])] *)
Definition get_series (metrics : gmap string (list (Z * pyfloat))) (m : string)
    : list (Z * pyfloat) :=
  default [] (metrics !! m).

(** One iteration of the loop over [meds_df.iterrows()]. *)
Definition pressor_step (pressor_times : gmap Z (gmap string pyfloat))
    (r : med_row) : gmap Z (gmap string pyfloat) :=
  let rate := med_rate r in
  let unit := match med_unit r with Some u => lower u | None => "" end in
  if known_and notna rate
     && (contains "ug/kg/min" unit || contains "mcg/kg/min" unit)
  then
    match rate with
    | Some val =>
        <[med_effective r :=
            <[med_pressor r := val]> (default ∅ (pressor_times !! med_effective r))]>
          pressor_times
    | None => pressor_times
    end
  else pressor_times.

Definition build_pressor_times (meds_df : list med_row)
    : gmap Z (gmap string pyfloat) :=
  match meds_df with
  | [] => ∅
  | _ :: _ => foldl pressor_step ∅ meds_df
  end.

(** The values the loop body gathers for one candidate time. *)
Record readings : Type := {
  pao2 : option pyfloat;
  spo2 : option pyfloat;
  fio2_raw : option pyfloat;
  fio2 : option pyfloat;
  map_v : option pyfloat;
  plate : option pyfloat;
  bili : option pyfloat;
  creat : option pyfloat;
  gcs : option pyfloat;
  pf : option pyfloat;
  sf : option pyfloat;
  pressor : option (gmap string pyfloat);
}.

(** [(x / fio2) if (x is not None and fio2) else None] *)
Definition ratio (x fio2 : option pyfloat) : option pyfloat :=
  match x, fio2 with
  | Some a, Some f => if ftruthy f then Some (a / f)%F else None
  | _, _ => None
  end.

Definition read_at (metrics : gmap string (list (Z * pyfloat)))
    (pressor_times : gmap Z (gmap string pyfloat)) (t : Z) : readings :=
  let pao2 := latest_within (get_series metrics "PaO2") t WINDOW_HOURS in
  let spo2 := latest_within (get_series metrics "SpO2") t WINDOW_HOURS in
  let fio2_raw := latest_within (get_series metrics "FiO2") t WINDOW_HOURS in
  let fio2 :=
    match fio2_raw with
    | Some _ => norm_fio2 fio2_raw (Some "%")
    | None => Some DEFAULT_FIO2
    end in
  let map_v := latest_within (get_series metrics "MAP") t WINDOW_HOURS in
  let plate := latest_within (get_series metrics "Platelets") t WINDOW_HOURS in
  let bili := latest_within (get_series metrics "Bilirubin") t WINDOW_HOURS in
  let creat := latest_within (get_series metrics "Creatinine") t WINDOW_HOURS in
  let gcs := latest_within (get_series metrics "GCS") t WINDOW_HOURS in
  let gcs := match gcs with None => Some (Fin 15) | Some g => Some g end in
  let pf := ratio pao2 fio2 in
  let sf := ratio spo2 fio2 in
  let pressor := pressor_times !! t in
  {| pao2 := pao2; spo2 := spo2; fio2_raw := fio2_raw; fio2 := fio2;
     map_v := map_v; plate := plate; bili := bili; creat := creat;
     gcs := gcs; pf := pf; sf := sf; pressor := pressor |}.

(** The dict [components], in insertion order. *)
Definition components (r : readings) : list (string * option Z) :=
  let s_resp := score_resp (pf r) (sf r) false in
  let s_coag := score_coag (plate r) in
  let s_liver := score_liver (bili r) in
  let s_card := score_cardio (map_v r) (pressor r) in
  let s_cns := score_cns (gcs r) in
  let s_renal := score_renal (creat r) in
  [("Resp", s_resp); ("Coag", s_coag); ("Liver", s_liver);
   ("Cardio", s_card); ("CNS", s_cns); ("Renal", s_renal)].

Definition is_none {A} (v : option A) : bool :=
  match v with None => true | Some _ => false end.

(** The body of the loop over [times], on the list [rows] and the
    printed lines. *)
Definition sofa_step (subject : string)
    (metrics : gmap string (list (Z * pyfloat)))
    (pressor_times : gmap Z (gmap string pyfloat))
    (st : list scored_row * list message) (t : Z)
    : list scored_row * list message :=
  let '(rows, out) := st in
  let components := components (read_at metrics pressor_times t) in
  if existsb (fun kv => is_none (snd kv)) components then
    let missing := map fst (List.filter (fun kv => is_none (snd kv)) components) in
    if (3 <=? length missing)%nat then (rows, out ++ [Missing t missing])%list
    else (rows, out)
  else
    let sofa_total := foldl Z.add 0%Z (omap snd components) in
    (rows ++ [{| patient_id := subject; sofa_score_datetime := t;
                 sofa_score := sofa_total |}], out)%list.

(** [compute_patient_sofa] after its two fetch-and-flatten calls, as a
    function of the two frames: the rows of the result and the lines
    printed. *)
Definition compute_patient_sofa (subject : string) (obs_df : list obs_row)
    (meds_df : list med_row) : list scored_row * list message :=
  let out := [Computing subject; Counts (length obs_df) (length meds_df)] in
  match obs_df with
  | [] => ([], out ++ [NoObservations])%list
  | _ :: _ =>
      let metrics := build_metrics obs_df in
      let pressor_times := build_pressor_times meds_df in
      let times := round_times_to_observation_ticks (map effective obs_df) in
      let '(rows, out) :=
        foldl (sofa_step subject metrics pressor_times) ([], out) times in
      (rows, out ++ [Calculated (length rows) subject])%list
  end.

Definition SUBJECTS : list string :=
  ["a"; "b"; "c"; "d"; "e"; "f"; "g"; "h"; "i"].

Section Run.
(** The parsers of the datetime library and the join of pandas. *)
Variable strptime : string -> string -> result datetime.
Variable fromisoformat : string -> result datetime.
Variable merge_asof :
  list (Z * pyfloat) -> list (Z * pyfloat) -> Z -> list (Z * pyfloat * pyfloat).
(** The two requests to the server, with the subject alone; a request
    that fails raises. *)
Variable fetch_observations_for_subject : string -> result (list observation).
Variable fetch_medication_administrations_for_subject :
  string -> result (list medication).

(** [compute_patient_sofa(subject)] from its first line: the two
    requests, the two frames, then the computation on the frames.  The
    lines printed before an exception are not kept. *)
Definition compute_patient_sofa_subject (subject : string)
    : result (list scored_row * list message) :=
  obs ← fetch_observations_for_subject subject;
  meds ← fetch_medication_administrations_for_subject subject;
  obs_df ← observations_to_df strptime fromisoformat merge_asof obs subject;
  meds_df ← medications_to_df strptime fromisoformat meds subject;
  Ok (compute_patient_sofa subject obs_df meds_df).

(** The loop of [main] over the subjects: the frames that are not empty,
    in order. *)
Fixpoint collect_frames (subjects : list string)
    : result (list (list scored_row)) :=
  match subjects with
  | [] => Ok []
  | sub :: rest =>
      r ← compute_patient_sofa_subject sub;
      let df := fst r in
      all_rows ← collect_frames rest;
      Ok (match df with
          | [] => all_rows
          | _ :: _ => df :: all_rows
          end)
  end.

(** [main] up to the frame [out] it builds with [pd.concat]; the
    formatting of the times and the writing of the file are not
    modelled. *)
Definition main : result (list scored_row) :=
  all_rows ← collect_frames SUBJECTS;
  Ok (concat all_rows).

End Run.

End Main.


(* ===================================================================== *)
(** ** The rules of the specification *)
(* ===================================================================== *)

(** The band tables and the priority rule of the sub-scores, written
    from the specification, to be compared with the functions of
    [scoring.py]; and the notions the theorems on [utils.py] and [main.py]
    are stated with. *)
Module Rules.
Local Open Scope Q_scope.
Local Open Scope float_scope.

Definition in_cc (lo hi : Q) (v : pyfloat) : bool := (lo <=? v) && (v <=? hi).
Definition in_co (lo hi : Q) (v : pyfloat) : bool := (lo <=? v) && (v <? hi).
Definition in_oc (lo hi : Q) (v : pyfloat) : bool := (lo <? v) && (v <=? hi).

(** [o is not None] *)
Definition present {A} (o : option A) : bool :=
  match o with Some _ => true | None => false end.

(** A ratio is known when it is there and finite. *)
Definition known (o : option pyfloat) : option pyfloat :=
  match o with
  | Some v => if isfinite v then Some v else None
  | None => None
  end.

Definition resp_pf_bands (pf : pyfloat) : bool :=
  (pf >=? 400) || in_co 300 400 pf || in_co 200 300 pf || in_co 100 200 pf
  || (pf <? 100).

Definition resp_sf_bands (sf : pyfloat) : bool :=
  (sf >? 302) || in_co 221 302 sf || in_co 142 221 sf || (sf <? 142)
  || (sf <? 67).

Definition resp_bands (pf sf : option pyfloat) : bool :=
  match known pf with
  | Some p => resp_pf_bands p
  | None => known_and resp_sf_bands (known sf)
  end.

Definition coag_bands (v : pyfloat) : bool :=
  (v >=? 150) || in_co 100 150 v || in_co 50 100 v || in_co 20 50 v
  || (v <? 20).

Definition liver_bands (v : pyfloat) : bool :=
  (v <? 1.2) || in_cc 1.2 1.9 v || in_cc 2.0 5.9 v || in_cc 6.0 11.9 v
  || (v >=? 12.0).

Definition cns_bands (v : pyfloat) : bool :=
  (v =? 15) || in_cc 13 14 v || in_cc 10 12 v || in_cc 6 9 v || (v <? 6).

Definition renal_bands (v : pyfloat) : bool :=
  (v <? 1.2) || in_cc 1.2 1.9 v || in_cc 2.0 3.4 v || in_cc 3.5 4.9 v
  || (v >=? 5.0).

(** The rate of a drug in the optional dict of rates. *)
Definition rate_of (pressor : option (gmap string pyfloat)) (drug : string)
    : option pyfloat :=
  pressor ≫= (fun p => p !! drug).

Section Cardio.
(** The dopamine band of score 3. *)
Variable dopamine_band_3 : pyfloat -> bool.

Definition cardio_rule_4 (pressor : option (gmap string pyfloat)) : bool :=
  known_and (fun d => d >? 15) (rate_of pressor "dopamine")
  || known_and (fun n => n >? 0.1) (rate_of pressor "norepinephrine")
  || known_and (fun e => e >? 0.1) (rate_of pressor "epinephrine").

Definition cardio_rule_3 (pressor : option (gmap string pyfloat)) : bool :=
  known_and dopamine_band_3 (rate_of pressor "dopamine")
  || known_and (in_oc 0 0.1) (rate_of pressor "norepinephrine")
  || known_and (in_oc 0 0.1) (rate_of pressor "epinephrine").

(** The priority rule: dobutamine, then the high rates, then the
    middle rates, then low dopamine, then mean arterial pressure. *)
Definition cardio_rule (map_mmHg : option pyfloat)
    (pressor : option (gmap string pyfloat)) : option Z :=
  if present (rate_of pressor "dobutamine") then Some 2%Z
  else if cardio_rule_4 pressor then Some 4%Z
  else if cardio_rule_3 pressor then Some 3%Z
  else if known_and (fun d => d <? 5) (rate_of pressor "dopamine") then Some 2%Z
  else
    match map_mmHg with
    | Some m => if m >=? 70 then Some 0%Z else Some 1%Z
    | None => None
    end.

(** Some branch of the rule applies. *)
Definition cardio_bands (map_mmHg : option pyfloat)
    (pressor : option (gmap string pyfloat)) : bool :=
  present (rate_of pressor "dobutamine")
  || cardio_rule_4 pressor
  || cardio_rule_3 pressor
  || known_and (fun d => d <? 5) (rate_of pressor "dopamine")
  || present map_mmHg.
End Cardio.

(** A unit that indicates a percentage: a non-empty string that is,
    stripped and in lower case, one of the three spellings. *)
Definition indicates_percent (unit : option string) : bool :=
  PyStr.truthy unit
  && PyStr.mem (PyStr.lower (PyStr.strip (default EmptyString unit)))
               ["%"; "percent"; "perc"]%string.

(** [rt] lies in the closed look-back window of [w] hours before [t]. *)
Definition in_window (t w rt : Z) : Prop :=
  (t - timedelta_hours w <= rt <= t)%Z.

(** The systems whose sub-score is unknown, in the order of the
    components. *)
Definition missing_systems (comps : list (string * option Z)) : list string :=
  map fst (List.filter (fun kv => Main.is_none (snd kv)) comps).

(** The rows of a result frame for the timestamp [t]. *)
Definition rows_at (t : Z) (rows : list Main.scored_row) : list Main.scored_row :=
  List.filter (fun r => (Main.sofa_score_datetime r =? t)%Z) rows.

(** The candidate timestamps of a patient: the distinct observation
    times, sorted. *)
Definition candidate_times (obs_df : list FhirIo.obs_row) : list Z :=
  Utils.round_times_to_observation_ticks (map FhirIo.effective obs_df).

(** What the pair [(latest_t, latest_val)] knows after the loop of
    [latest_within] has read the records [seen]. *)
Definition latest_inv {V} (t w : Z) (seen : list (Z * V))
    (st : option Z * option V) : Prop :=
  match st with
  | (None, None) => forall rt v, In (rt, v) seen -> ~ in_window t w rt
  | (Some lt, Some lv) =>
      In (lt, lv) seen /\ in_window t w lt
      /\ forall rt v, In (rt, v) seen -> in_window t w rt -> (rt <= lt)%Z
  | _ => False
  end.

(** The rows and the printed lines that one iteration of the loop of
    [compute_patient_sofa] adds. *)
Definition step_rows (subject : string)
    (metrics : gmap string (list (Z * pyfloat)))
    (pressor_times : gmap Z (gmap string pyfloat)) (t : Z)
    : list Main.scored_row :=
  fst (Main.sofa_step subject metrics pressor_times ([], []) t).

Definition step_out (subject : string)
    (metrics : gmap string (list (Z * pyfloat)))
    (pressor_times : gmap Z (gmap string pyfloat)) (t : Z)
    : list Main.message :=
  snd (Main.sofa_step subject metrics pressor_times ([], []) t).

(** The row [r] with another unit string. *)
Definition with_unit (u : FhirIo.obs_row -> option string) (r : FhirIo.obs_row)
    : FhirIo.obs_row :=
  {| FhirIo.patient_id := FhirIo.patient_id r; FhirIo.metric := FhirIo.metric r;
     FhirIo.value := FhirIo.value r; FhirIo.unit := u r;
     FhirIo.effective := FhirIo.effective r |}.

(** The dopamine band of score 3 as the specification writes it,
    (5.1, 15], and as [score_cardio] tests it, [5.1, 15]. *)
Definition dopamine_open : pyfloat -> bool := in_oc 5.1 15.
Definition dopamine_closed : pyfloat -> bool := in_cc 5.1 15.

End Rules.

(* ===================================================================== *)
(** ** Notions of the further properties *)
(* ===================================================================== *)

Module Notions.
Import PyStr.
Local Open Scope string_scope.

(** The test of [compute_patient_sofa] on a medication row: its rate is
    there and is not NaN, and its unit, in lower case, mentions
    ug/kg/min or mcg/kg/min. *)
Definition dose_valid (r : FhirIo.med_row) : bool :=
  let unit := match FhirIo.med_unit r with Some u => lower u | None => "" end in
  known_and notna (FhirIo.med_rate r)
  && (contains "ug/kg/min" unit || contains "mcg/kg/min" unit).

(** What one medication row does to the dict of rates kept for the
    instant [t]. *)
Definition slot_step (t : Z) (slot : option (gmap string pyfloat))
    (r : FhirIo.med_row) : option (gmap string pyfloat) :=
  if dose_valid r && (FhirIo.med_effective r =? t)%Z then
    match FhirIo.med_rate r with
    | Some val => Some (<[FhirIo.med_pressor r := val]> (default ∅ slot))
    | None => slot
    end
  else slot.

(** The rate of the last valid row of the frame for the drug [k] at the
    instant [t]. *)
Definition last_dose (meds_df : list FhirIo.med_row) (t : Z) (k : string)
    : option pyfloat :=
  foldl (fun acc r =>
           if dose_valid r && (FhirIo.med_effective r =? t)%Z
              && String.eqb (FhirIo.med_pressor r) k
           then FhirIo.med_rate r else acc)
        None meds_df.

(** The invariant of the dict kept for [t]: it is not empty, its rates
    are not NaN, and each comes from a valid row of that instant. *)
Definition slot_ok (meds_df : list FhirIo.med_row) (t : Z)
    (slot : option (gmap string pyfloat)) : Prop :=
  match slot with
  | None => True
  | Some d =>
      Scoring.dict_truthy d = true
      /\ forall k v, d !! k = Some v ->
           notna v = true
           /\ exists r, In r meds_df /\ dose_valid r = true
                        /\ FhirIo.med_effective r = t
                        /\ FhirIo.med_pressor r = k /\ FhirIo.med_rate r = Some v
  end.

(** The frame has an observation of the metric [m] in the look-back
    window of [t]. *)
Definition observed (obs_df : list FhirIo.obs_row) (m : string) (t : Z) : Prop :=
  exists o, In o obs_df /\ FhirIo.metric o = m
    /\ Rules.in_window t Main.WINDOW_HOURS (FhirIo.effective o).

(** The medication rows recorded at one of the observation times. *)
Definition at_observation_times (obs_df : list FhirIo.obs_row)
    (meds_df : list FhirIo.med_row) : list FhirIo.med_row :=
  List.filter
    (fun r => existsb (Z.eqb (FhirIo.med_effective r)) (map FhirIo.effective obs_df))
    meds_df.

End Notions.

(* ===================================================================== *)
(** ** Inputs of the examples *)
(* ===================================================================== *)

(** A systolic reading of 120 at 10:00 and a diastolic reading of 80 two
    minutes later. *)
Definition blood_pressure_reading (loinc display : string) (v : Q) (t : string)
    : FhirIo.observation :=
  {| FhirIo.code :=
       Some {| FhirIo.cc_coding :=
                 [{| FhirIo.coding_code := Some loinc;
                     FhirIo.coding_display := Some display |}];
               FhirIo.cc_text := None |};
     FhirIo.valueQuantity :=
       Some {| FhirIo.q_value := Some (Fin v); FhirIo.q_unit := Some "mmHg"%string;
               FhirIo.q_code := None |};
     FhirIo.effectiveDateTime := Some t;
     FhirIo.issued := None |}.

Definition systolic_120 : FhirIo.observation :=
  blood_pressure_reading "8480-6" "Systolic blood pressure" 120 "2024-01-01T10:00:00Z".
Definition diastolic_80 : FhirIo.observation :=
  blood_pressure_reading "8462-4" "Diastolic blood pressure" 80 "2024-01-01T10:02:00Z".

(** A patient with every metric but GCS charted at the instant 0, and a
    creatinine of 1.95 charted one minute later. *)
Definition chart_row (m : string) (v : Q) (u : option string) (t : Z)
    : FhirIo.obs_row :=
  {| FhirIo.patient_id := "a"; FhirIo.metric := m; FhirIo.value := Fin v;
     FhirIo.unit := u; FhirIo.effective := t |}.

Definition chart : list FhirIo.obs_row :=
  [chart_row "PaO2" 90 (Some "mmHg"%string) 0;
   chart_row "FiO2" 0.35 None 0;
   chart_row "MAP" 65 (Some "mmHg"%string) 0;
   chart_row "Platelets" 120 None 0;
   chart_row "Bilirubin" 1.0 None 0;
   chart_row "Creatinine" 1.0 None 0;
   chart_row "Creatinine" 1.95 None (timedelta_minutes 1)].

(** The chart without its mean arterial pressure, and the chart with an
    FiO2 of zero. *)
Definition chart_without_map : list FhirIo.obs_row :=
  [chart_row "PaO2" 90 (Some "mmHg"%string) 0;
   chart_row "FiO2" 0.35 None 0;
   chart_row "Platelets" 120 None 0;
   chart_row "Bilirubin" 1.0 None 0;
   chart_row "Creatinine" 1.0 None 0].

Definition chart_fio2_zero : list FhirIo.obs_row :=
  [chart_row "PaO2" 90 (Some "mmHg"%string) 0;
   chart_row "FiO2" 0 None 0;
   chart_row "MAP" 65 (Some "mmHg"%string) 0;
   chart_row "Platelets" 120 None 0;
   chart_row "Bilirubin" 1.0 None 0;
   chart_row "Creatinine" 1.0 None 0].

(** Observation resources of one metric by its LOINC code: two platelet
    counts, the later one first, and a panel of six metrics at 10:00. *)
Definition platelets_late_first : list FhirIo.observation :=
  [blood_pressure_reading "777-3" "Platelets" 120 "2024-01-01T10:02:00Z";
   blood_pressure_reading "777-3" "Platelets" 90 "2024-01-01T10:00:00Z"].

Definition full_panel : list FhirIo.observation :=
  [blood_pressure_reading "2703-7" "PaO2" 90 "2024-01-01T10:00:00Z";
   blood_pressure_reading "3150-0" "FiO2" 35 "2024-01-01T10:00:00Z";
   blood_pressure_reading "8478-0" "MAP" 65 "2024-01-01T10:00:00Z";
   blood_pressure_reading "777-3" "Platelets" 120 "2024-01-01T10:00:00Z";
   blood_pressure_reading "1975-2" "Bilirubin" 1.0 "2024-01-01T10:00:00Z";
   blood_pressure_reading "2160-0" "Creatinine" 1.0 "2024-01-01T10:00:00Z"].

(** A MedicationAdministration resource: the display of its one coding
    and a rate in mcg/kg/min under ['rateQuantity']. *)
Definition infusion (display : string) (v : Q) (t : string) : FhirIo.medication :=
  {| FhirIo.medicationCodeableConcept :=
       Some {| FhirIo.cc_coding :=
                 [{| FhirIo.coding_code := None;
                     FhirIo.coding_display := Some display |}];
               FhirIo.cc_text := None |};
     FhirIo.dosage :=
       Some {| FhirIo.doseRateQuantity := None;
               FhirIo.rateQuantity :=
                 Some {| FhirIo.rq_value := Some (Some (Fin v));
                         FhirIo.rq_unit := Some "mcg/kg/min"%string;
                         FhirIo.rq_code := None |};
               FhirIo.rate := None |};
     FhirIo.med_effectiveDateTime := Some t |}.

Definition noradrenaline : FhirIo.medication :=
  infusion "Norepinephrine (noradrenaline)" 0.05 "2024-01-01T10:00:00Z".


(** A server that holds the panel for the subject a and the two platelet
    counts for every other subject, and one infusion for each; and a join
    that matches nothing. *)
Definition server_obs (sub : string) : result (list FhirIo.observation) :=
  Ok (if String.eqb sub "a" then full_panel else platelets_late_first).

Definition server_meds (sub : string) : result (list FhirIo.medication) :=
  Ok [infusion "Levophed" 0.05 "2024-01-01T10:00:00Z"].

Definition no_join (left right : list (Z * pyfloat)) (tolerance : Z)
    : list (Z * pyfloat * pyfloat) := [].

(* ===================================================================== *)
(** ** Comparisons of floats *)
(* ===================================================================== *)

Lemma Qle_bool_reflect (x y : Q) : reflect (x <= y)%Q (Qle_bool x y).
Proof.
  destruct (Qle_bool x y) eqn:E; constructor.
  - by apply Qle_bool_iff.
  - intros H. apply Qle_bool_iff in H. congruence.
Qed.

Lemma Qeq_bool_reflect (x y : Q) : reflect (x == y)%Q (Qeq_bool x y).
Proof.
  destruct (Qeq_bool x y) eqn:E; constructor.
  - by apply Qeq_bool_iff.
  - by apply Qeq_bool_neq.
Qed.

(** Unfold the comparisons of a finite float down to [Qle_bool] and
    [Qeq_bool]. *)
Ltac float_unfold :=
  unfold Rules.in_cc, Rules.in_co, Rules.in_oc, fge, fgt in *;
  cbn [fle flt feqb isfinite ftruthy notna known_and] in *;
  unfold Qlt_bool in *.

(** Decide every rational comparison in the goal, dropping the
    impossible combinations as they appear. *)
Ltac q_cases :=
  repeat match goal with
  | |- context [Qle_bool ?x ?y] =>
      destruct (Qle_bool_reflect x y); cbn [negb andb orb]; try (exfalso; lra)
  | |- context [Qeq_bool ?x ?y] =>
      destruct (Qeq_bool_reflect x y); cbn [negb andb orb]; try (exfalso; lra)
  end.

Ltac float_solve :=
  float_unfold; q_cases;
  try reflexivity; try discriminate; try tauto;
  try (split; intros; discriminate); try (exfalso; lra).

(* ===================================================================== *)
(** ** scoring.py: theorems *)
(* ===================================================================== *)

Section ScoringFacts.
Import Scoring Rules.
Local Open Scope Q_scope.

Lemma score_coag_none_iff (v : pyfloat) :
  score_coag (Some v) = None <-> coag_bands v = false.
Proof.
  unfold score_coag, coag_bands.
  destruct v; [float_solve | done ..].
Qed.

Lemma score_liver_none_iff (v : pyfloat) :
  score_liver (Some v) = None <-> liver_bands v = false.
Proof.
  unfold score_liver, liver_bands.
  destruct v; [float_solve | done ..].
Qed.

Lemma score_cns_none_iff (v : pyfloat) :
  score_cns (Some v) = None <-> cns_bands v = false.
Proof.
  unfold score_cns, cns_bands.
  destruct v; [float_solve | done ..].
Qed.

Lemma score_renal_none_iff (v : pyfloat) :
  score_renal (Some v) = None <-> renal_bands v = false.
Proof.
  unfold score_renal, renal_bands.
  destruct v; [float_solve | done ..].
Qed.

Lemma score_resp_pf_total (q : Q) : score_resp_pf (Fin q) <> None.
Proof. unfold score_resp_pf. float_solve. Qed.

Lemma resp_pf_bands_total (q : Q) : resp_pf_bands (Fin q) = true.
Proof. unfold resp_pf_bands. float_solve. Qed.

Lemma score_resp_sf_none_iff (q : Q) (on : bool) :
  score_resp_sf (Fin q) on = None <-> resp_sf_bands (Fin q) = false.
Proof. unfold score_resp_sf, resp_sf_bands. float_solve. Qed.

Lemma score_resp_none_iff (pf sf : option pyfloat) (on : bool) :
  score_resp pf sf on = None <-> resp_bands pf sf = false.
Proof.
  unfold score_resp, resp_bands, known.
  destruct pf as [[q| | |]|]; cbn [known_and isfinite negb].
  1: { rewrite resp_pf_bands_total. split; [|done].
       intros H. by apply score_resp_pf_total in H. }
  all: destruct sf as [[q'| | |]|]; cbn [known_and isfinite negb]; try done.
  all: apply score_resp_sf_none_iff.
Qed.

(** An empty dict has no rate. *)
Lemma dict_falsy_lookup {V} (d : gmap string V) (k : string) :
  dict_truthy d = false -> d !! k = None.
Proof.
  unfold dict_truthy. intros H.
  apply negb_false_iff, Nat.eqb_eq, map_size_empty_iff in H.
  subst d. apply lookup_empty.
Qed.

Lemma zero_literal_lt (v : pyfloat) : (0.0 <? v)%F = (0 <? v)%F.
Proof. destruct v; [float_solve | done ..]. Qed.

Lemma score_cardio_rule (map_mmHg : option pyfloat)
    (pressor : option (gmap string pyfloat)) :
  score_cardio map_mmHg pressor = cardio_rule dopamine_closed map_mmHg pressor.
Proof.
  assert (Hmap : match map_mmHg with
                 | Some m => Some (if (m >=? 70)%F then 0%Z else 1%Z)
                 | None => None
                 end
               = match map_mmHg with
                 | Some m => if (m >=? 70)%F then Some 0%Z else Some 1%Z
                 | None => None
                 end).
  { destruct map_mmHg as [m|]; [|done]. by destruct (m >=? 70)%F. }
  unfold score_cardio, cardio_rule, cardio_rule_4, cardio_rule_3, rate_of.
  destruct pressor as [p|]; cbn [mbind option_bind known_and present orb];
    [|exact Hmap].
  destruct (dict_truthy p) eqn:Hp.
  - destruct (p !! "dobutamine"%string); cbn [present]; [done|].
    unfold dopamine_closed, in_cc, in_oc.
    destruct (p !! "dopamine"%string) as [dop|],
             (p !! "norepinephrine"%string) as [ne|],
             (p !! "epinephrine"%string) as [epi|];
      cbn [known_and]; rewrite ?zero_literal_lt;
      repeat match goal with
             | |- context [if ?b then _ else _] => destruct b
             end; try done; exact Hmap.
  - rewrite !(dict_falsy_lookup p _ Hp). exact Hmap.
Qed.

Lemma score_cardio_none_iff (map_mmHg : option pyfloat)
    (pressor : option (gmap string pyfloat)) :
  score_cardio map_mmHg pressor = None
  <-> cardio_bands dopamine_closed map_mmHg pressor = false.
Proof.
  rewrite score_cardio_rule. unfold cardio_rule, cardio_bands.
  destruct (present (rate_of pressor "dobutamine")); [done|].
  destruct (cardio_rule_4 pressor); [done|].
  destruct (cardio_rule_3 dopamine_closed pressor); [done|].
  destruct (known_and _ (rate_of pressor "dopamine")); [done|].
  destruct map_mmHg as [m|]; [|done].
  by destruct (m >=? 70)%F.
Qed.

(** The rule with the dopamine band open at 5.1 and the rule with the
    band closed there differ only on a dopamine rate equal to 5.1. *)
Lemma cardio_rule_open_closed (map_mmHg : option pyfloat)
    (pressor : option (gmap string pyfloat)) :
  known_and (fun d => d =? 5.1)%F (rate_of pressor "dopamine") = false ->
  cardio_rule dopamine_open map_mmHg pressor
  = cardio_rule dopamine_closed map_mmHg pressor.
Proof.
  intros Hne. unfold cardio_rule, cardio_rule_3.
  replace (known_and dopamine_open (rate_of pressor "dopamine"))
    with (known_and dopamine_closed (rate_of pressor "dopamine")); [done|].
  destruct (rate_of pressor "dopamine") as [[q| | |]|]; try done.
  revert Hne. unfold dopamine_open, dopamine_closed. float_solve.
Qed.

(** The examples of the specification. *)
Example score_cardio_examples :
  (forall m, score_cardio m (Some {[ "dobutamine"%string := Fin 1.0 ]}) = Some 2%Z)
  /\ score_cardio None (Some {[ "norepinephrine"%string := Fin 0.15 ]}) = Some 4%Z
  /\ score_cardio (Some (Fin 65)) None = Some 1%Z
  /\ score_cardio None None = None.
Proof.
  split; [|by vm_compute].
  intros m. rewrite score_cardio_rule. reflexivity.
Qed.

End ScoringFacts.

(** Claim C4, as amended.  The cardiovascular sub-score follows the
    priority rule for every MAP and every optional dict of rates: a
    dobutamine rate gives 2; else dopamine > 15 or norepinephrine > 0.1 or
    epinephrine > 0.1 gives 4; else dopamine in the closed band [5.1, 15]
    or norepinephrine in (0, 0.1] or epinephrine in (0, 0.1] gives 3; else
    dopamine < 5 gives 2; otherwise MAP >= 70 gives 0, any other known MAP
    gives 1, and an unknown MAP gives unknown. *)
Theorem score_cardio_priority_rule :
  forall (map_mmHg : option pyfloat) (pressor : option (gmap string pyfloat)),
    Scoring.score_cardio map_mmHg pressor
    = Rules.cardio_rule Rules.dopamine_closed map_mmHg pressor.
Proof. exact score_cardio_rule. Qed.

(** Claim C4 as stated fails: with the dopamine band open at 5.1, a
    dopamine rate of exactly 5.1 and MAP 80 would fall back to MAP and
    score 0; [score_cardio] scores it 3. *)
Lemma score_cardio_dopamine_5_1_scores_3 :
  Scoring.score_cardio (Some (Fin 80)) (Some {[ "dopamine"%string := Fin 5.1 ]})
    = Some 3
  /\ Rules.cardio_rule Rules.dopamine_open
       (Some (Fin 80)) (Some {[ "dopamine"%string := Fin 5.1 ]}) = Some 0.
Proof. split; vm_compute; reflexivity. Qed.

(** Claim C5.  The respiratory sub-score on finite ratios: a known pf is
    banded >= 400 -> 0, [300, 400) -> 1, [200, 300) -> 2, [100, 200) -> 3,
    < 100 -> 4; without pf, sf is banded > 302 -> 0, [221, 302) -> 1,
    [142, 221) -> 2, and every sf below 142 is scored by the test
    [sf < 142]: 2 without respiratory support and 3 with it, also below
    67, where the band of scores 3 and 4 is declared.  At sf = 50 the code
    returns 2 (unsupported) and 3 (supported); no ratio is ever scored by
    the band below 67.  The four examples of the claim hold. *)
Theorem score_resp_band_below_67_never_applies :
  (forall (q : Q) (sf : option pyfloat) (on : bool),
     Scoring.score_resp (Some (Fin q)) sf on
     = Some (if Qle_bool 400 q then 0
             else if Qle_bool 300 q then 1
             else if Qle_bool 200 q then 2
             else if Qle_bool 100 q then 3
             else 4))
  /\ (forall (q : Q) (on : bool),
        Scoring.score_resp None (Some (Fin q)) on
        = if Qlt_bool 302 q then Some 0
          else if Qeq_bool q 302 then None
          else if Qle_bool 221 q then Some 1
          else if Qle_bool 142 q then Some 2
          else Some (if on then 3 else 2))
  /\ (forall on, Scoring.score_resp None None on = None)
  /\ Scoring.score_resp None (Some (Fin 50)) false = Some 2
  /\ Scoring.score_resp None (Some (Fin 50)) true = Some 3
  /\ Scoring.score_resp (Some (Fin 250)) None false = Some 2
  /\ Scoring.score_resp (Some (Fin 450)) None false = Some 0
  /\ Scoring.score_resp None (Some (Fin 310)) false = Some 0
  /\ Scoring.score_resp None (Some (Fin 150)) false = Some 2.
Proof.
  split; [|split; [|by vm_compute]].
  - intros q sf on. unfold Scoring.score_resp, Scoring.score_resp_pf.
    cbn [known_and isfinite]. float_solve.
  - intros q on. unfold Scoring.score_resp, Scoring.score_resp_sf.
    cbn [known_and isfinite negb]. float_solve.
Qed.

(** Claim C8, as amended.  Each of the six sub-score functions returns
    unknown exactly on the known inputs that lie outside all of its bands:
    the gaps of the liver, renal and CNS tables, NaN for the platelet
    count, the ratio 302 on the SpO2/FiO2 path, and, for the cardiovascular
    rule read with the dopamine band [5.1, 15], the inputs to which no
    branch applies. *)
Theorem sub_scores_unknown_outside_bands :
  (forall pf sf on, Rules.resp_bands pf sf = false -> Scoring.score_resp pf sf on = None)
  /\ (forall v, Rules.coag_bands v = false -> Scoring.score_coag (Some v) = None)
  /\ (forall v, Rules.liver_bands v = false -> Scoring.score_liver (Some v) = None)
  /\ (forall m p, Rules.cardio_bands Rules.dopamine_closed m p = false ->
                  Scoring.score_cardio m p = None)
  /\ (forall v, Rules.cns_bands v = false -> Scoring.score_cns (Some v) = None)
  /\ (forall v, Rules.renal_bands v = false -> Scoring.score_renal (Some v) = None).
Proof.
  repeat split; intros.
  - by apply score_resp_none_iff.
  - by apply score_coag_none_iff.
  - by apply score_liver_none_iff.
  - by apply score_cardio_none_iff.
  - by apply score_cns_none_iff.
  - by apply score_renal_none_iff.
Qed.

(** A bilirubin and a creatinine of 1.95, in the gap between the bands
    [1.2, 1.9] and [2.0, ...], a GCS of 12.5, a NaN platelet count and the
    ratio sf = 302 are scored unknown. *)
Lemma sub_scores_unknown_outside_bands_witness :
  Scoring.score_liver (Some (Fin 1.95)) = None
  /\ Scoring.score_renal (Some (Fin 1.95)) = None
  /\ Scoring.score_cns (Some (Fin 12.5)) = None
  /\ Scoring.score_coag (Some NaN) = None
  /\ Scoring.score_resp None (Some (Fin 302)) false = None
  /\ Scoring.score_cardio None (Some {[ "dopamine"%string := Fin 5.05 ]}) = None.
Proof.
  destruct sub_scores_unknown_outside_bands as (Hresp & Hcoag & Hliver & Hcardio & Hcns & Hrenal).
  split; [apply Hliver; reflexivity|].
  split; [apply Hrenal; reflexivity|].
  split; [apply Hcns; reflexivity|].
  split; [apply Hcoag; reflexivity|].
  split; [apply Hresp; reflexivity|].
  apply Hcardio. vm_compute. reflexivity.
Defined.

(** Claim C8 as stated fails for the cardiovascular rule with the
    dopamine band written (5.1, 15]: a dopamine rate of exactly 5.1 with
    no other rate and an unknown MAP lies outside every branch of that
    rule, and [score_cardio] scores it 3. *)
Lemma score_cardio_dopamine_5_1_map_unknown :
  Rules.cardio_bands Rules.dopamine_open
    None (Some {[ "dopamine"%string := Fin 5.1 ]}) = false
  /\ Scoring.score_cardio None (Some {[ "dopamine"%string := Fin 5.1 ]}) = Some 3.
Proof. split; vm_compute; reflexivity. Qed.

(* ===================================================================== *)
(** ** utils.py: theorems *)
(* ===================================================================== *)

Section LatestWithinFacts.
Import Utils Rules.
Context {V : Type}.
Implicit Types (records : list (Z * V)) (t w rt : Z) (v : V).

Lemma latest_step_inv t w seen st (rec : Z * V) :
  latest_inv t w seen st ->
  latest_inv t w (seen ++ [rec]) (latest_step (t - timedelta_hours w) t st rec).
Proof.
  destruct st as [[lt|] [lv|]], rec as [rt v]; cbn [latest_inv latest_step];
    try done; unfold in_window.
  - intros (Hin & Hw & Hmax).
    destruct (Z.leb_spec (t - timedelta_hours w) rt), (Z.leb_spec rt t);
      cbn [andb]; try destruct (Z.gtb_spec rt lt); cbn [latest_inv];
      unfold in_window.
    all: repeat split; try lia; try (apply in_or_app; (by left) || (right; by left)).
    all: intros rt' v' [Hin'|[[= <- <-]|[]]]%in_app_or Hw'; try lia;
      specialize (Hmax _ _ Hin' Hw'); lia.
  - intros Hnone.
    destruct (Z.leb_spec (t - timedelta_hours w) rt), (Z.leb_spec rt t);
      cbn [andb latest_inv]; unfold in_window.
    1: { repeat split; try lia; [apply in_or_app; right; by left|].
         intros rt' v' [Hin'|[[= <- <-]|[]]]%in_app_or Hw'; [|lia].
         by destruct (Hnone _ _ Hin'). }
    all: intros rt' v' [Hin'|[[= <- <-]|[]]]%in_app_or;
      [by apply (Hnone _ _ Hin') | lia].
Qed.

Lemma latest_fold_inv t w records : forall seen st,
  latest_inv t w seen st ->
  latest_inv t w (seen ++ records)
    (fold_left (latest_step (t - timedelta_hours w) t) records st).
Proof.
  induction records as [|rec records IH]; intros seen st Hinv; cbn [fold_left].
  - by rewrite app_nil_r.
  - replace (seen ++ rec :: records) with ((seen ++ [rec]) ++ records)
      by (by rewrite <- app_assoc).
    apply IH. by apply latest_step_inv.
Qed.

Lemma latest_within_inv records t w :
  match latest_within records t w with
  | Some v =>
      exists rt, In (rt, v) records /\ in_window t w rt
        /\ forall rt' v', In (rt', v') records -> in_window t w rt' -> (rt' <= rt)%Z
  | None => forall rt v, In (rt, v) records -> ~ in_window t w rt
  end.
Proof.
  unfold latest_within.
  pose proof (latest_fold_inv t w records [] (None, None)) as H.
  cbn [app] in H.
  destruct (fold_left _ records (None, None)) as [[lt|] [lv|]];
    cbn [snd latest_inv] in *.
  - destruct H as (? & ? & ?); [by intros ? ? []|]. by exists lt.
  - destruct H. by intros ? ? [].
  - destruct H. by intros ? ? [].
  - apply H. by intros ? ? [].
Qed.

Lemma latest_within_none records t w :
  (forall rt v, In (rt, v) records -> ~ in_window t w rt) ->
  latest_within records t w = None.
Proof.
  intros Hnone. pose proof (latest_within_inv records t w) as H.
  destruct (latest_within records t w) as [v|]; [|done].
  destruct H as (rt & Hin & Hw & _). by destruct (Hnone _ _ Hin).
Qed.

Lemma latest_within_some records t w rt0 v0 :
  In (rt0, v0) records -> in_window t w rt0 ->
  exists rt v, latest_within records t w = Some v
    /\ In (rt, v) records /\ in_window t w rt
    /\ forall rt' v', In (rt', v') records -> in_window t w rt' -> (rt' <= rt)%Z.
Proof.
  intros Hin0 Hw0. pose proof (latest_within_inv records t w) as H.
  destruct (latest_within records t w) as [v|].
  - destruct H as (rt & ? & ? & ?). by exists rt, v.
  - by destruct (H _ _ Hin0).
Qed.

End LatestWithinFacts.

(** Claim C2.  For every series, query instant [t] and window of [w]
    hours: when no pair has its timestamp in [t - w, t] the lookup returns
    unknown; otherwise it returns the value of a pair of the series whose
    timestamp lies in the window and is the maximum of the timestamps in
    the window.  With [w = 6] a pair at t - 5h59m is returned and a pair at
    t - 6h01m is not. *)
Theorem latest_within_max_in_window :
  forall (V : Type) (records : list (Z * V)) (t w : Z),
    ((forall rt v, In (rt, v) records -> ~ Rules.in_window t w rt) ->
       Utils.latest_within records t w = None)
    /\ ((exists rt v, In (rt, v) records /\ Rules.in_window t w rt) ->
        exists rt v, Utils.latest_within records t w = Some v
          /\ In (rt, v) records /\ Rules.in_window t w rt
          /\ forall rt' v', In (rt', v') records -> Rules.in_window t w rt' ->
                            (rt' <= rt)%Z)
    /\ (forall v : V,
          Utils.latest_within
            [(t - (timedelta_hours 5 + timedelta_minutes 59), v)] t 6 = Some v)
    /\ (forall v : V,
          Utils.latest_within
            [(t - (timedelta_hours 6 + timedelta_minutes 1), v)] t 6 = None).
Proof.
  intros V records t w. split; [apply latest_within_none|].
  split; [intros (rt & v & Hin & Hw); by eapply latest_within_some|].
  unfold Utils.latest_within, timedelta_hours, timedelta_minutes.
  split; intros v; cbn [fold_left Utils.latest_step].
  - destruct (Z.leb_spec (t - 6 * 3600000000)
                (t - (5 * 3600000000 + 59 * 60000000))); [|lia].
    destruct (Z.leb_spec (t - (5 * 3600000000 + 59 * 60000000)) t); [done|lia].
  - destruct (Z.leb_spec (t - 6 * 3600000000)
                (t - (6 * 3600000000 + 1 * 60000000))); [lia|done].
Qed.

(** The later of two readings inside a six-hour window is returned; a
    reading left of the window is not. *)
Lemma latest_within_max_in_window_witness :
  (exists rt v, Utils.latest_within [(100, 1); (300, 3); (200, 2)]%Z 300 6 = Some v
     /\ In (rt, v) [(100, 1); (300, 3); (200, 2)]%Z /\ Rules.in_window 300 6 rt
     /\ forall rt' v', In (rt', v') [(100, 1); (300, 3); (200, 2)]%Z ->
                       Rules.in_window 300 6 rt' -> (rt' <= rt)%Z)
  /\ Utils.latest_within [(0, 7)]%Z (timedelta_hours 7) 6 = @None Z.
Proof.
  destruct (latest_within_max_in_window Z [(100, 1); (300, 3); (200, 2)]%Z 300 6)
    as (_ & Hsome & _).
  destruct (latest_within_max_in_window Z [(0, 7)]%Z (timedelta_hours 7) 6)
    as (Hnone & _).
  split.
  - apply Hsome. exists 300%Z, 3%Z. split; [right; left; reflexivity|].
    unfold Rules.in_window, timedelta_hours. lia.
  - apply Hnone. intros rt v [[= <- <-]|[]].
    unfold Rules.in_window, timedelta_hours. lia.
Defined.

Section NormFio2Facts.
Import Utils Rules.

Lemma norm_fio2_percent (v : pyfloat) (unit : option string) :
  indicates_percent unit = true ->
  norm_fio2 (Some v) unit = Some (v / 100%Q)%F.
Proof. unfold norm_fio2, indicates_percent. by intros ->. Qed.

Lemma norm_fio2_other (v : pyfloat) (unit : option string) :
  indicates_percent unit = false ->
  norm_fio2 (Some v) unit
  = if (v >? 1.5%Q)%F then Some (v / 100%Q)%F else Some v.
Proof. unfold norm_fio2, indicates_percent. by intros ->. Qed.

End NormFio2Facts.

(** Claim C6.  [norm_fio2] of an unknown value is unknown; with a unit
    that indicates a percentage the value is divided by 100; with any
    other unit, or none, a value above 1.5 is divided by 100 and any other
    value passes through unchanged.  So (60, "%") gives 0.6, (0.35, null)
    gives 0.35 and (60, null) gives 0.6. *)
Theorem norm_fio2_cases :
  (forall unit, Utils.norm_fio2 None unit = None)
  /\ (forall v unit, Rules.indicates_percent unit = true ->
        Utils.norm_fio2 (Some v) unit = Some (v / 100%Q)%F)
  /\ (forall v unit, Rules.indicates_percent unit = false ->
        (v >? 1.5%Q)%F = true ->
        Utils.norm_fio2 (Some v) unit = Some (v / 100%Q)%F)
  /\ (forall v unit, Rules.indicates_percent unit = false ->
        (v >? 1.5%Q)%F = false ->
        Utils.norm_fio2 (Some v) unit = Some v)
  /\ Utils.norm_fio2 (Some (Fin 60)) (Some "%"%string) ≃ Some (Fin 0.6)
  /\ Utils.norm_fio2 (Some (Fin 0.35)) None ≃ Some (Fin 0.35)
  /\ Utils.norm_fio2 (Some (Fin 60)) None ≃ Some (Fin 0.6).
Proof.
  split; [done|].
  split; [apply norm_fio2_percent|].
  split; [intros v unit Hu Hv; by rewrite norm_fio2_other, Hv|].
  split; [intros v unit Hu Hv; by rewrite norm_fio2_other, Hv|].
  by vm_compute.
Qed.

(** The spellings of the percentage are read without case and without
    the surrounding blanks; a fraction recorded in mmHg passes through and
    a raw 21 without unit is read as 21 percent. *)
Lemma norm_fio2_cases_witness :
  Utils.norm_fio2 (Some (Fin 40)) (Some " Percent "%string) = Some (Fin 40 / 100%Q)%F
  /\ Utils.norm_fio2 (Some (Fin 21)) (Some "mmHg"%string) = Some (Fin 21 / 100%Q)%F
  /\ Utils.norm_fio2 (Some (Fin 0.5)) (Some ""%string) = Some (Fin 0.5).
Proof.
  destruct norm_fio2_cases as (_ & Hp & Hbig & Hsmall & _).
  split; [apply Hp; reflexivity|].
  split; [apply Hbig; reflexivity|].
  apply Hsmall; reflexivity.
Defined.

Section ParseTimeFacts.
Import Utils PyStr.
Variable strptime : string -> string -> result datetime.
Variable fromisoformat : string -> result datetime.

Lemma parse_time_utc (ts : string) (d : datetime) :
  endswith ts "Z" = true -> strptime ts ISO_FMT = Ok d ->
  parse_time strptime fromisoformat ts = Ok (replace_tzinfo d timezone_utc).
Proof. unfold parse_time. by intros -> ->. Qed.

Lemma parse_time_fallback (ts : string) (e : exn) :
  endswith ts "Z" = true -> strptime ts ISO_FMT = Raise e ->
  parse_time strptime fromisoformat ts
  = fromisoformat (replace ts "Z" "+00:00").
Proof. unfold parse_time. by intros -> ->. Qed.

Lemma parse_time_generic (ts : string) :
  endswith ts "Z" = false ->
  parse_time strptime fromisoformat ts
  = fromisoformat (replace ts "Z" "+00:00").
Proof.
  unfold parse_time. intros ->.
  by destruct (fromisoformat _).
Qed.

Lemma parse_time_raises_iff (ts : string) (e : exn) :
  parse_time strptime fromisoformat ts = Raise e
  <-> fromisoformat (replace ts "Z" "+00:00") = Raise e
      /\ (endswith ts "Z" = true -> exists e', strptime ts ISO_FMT = Raise e').
Proof.
  destruct (endswith ts "Z") eqn:Hz.
  - destruct (strptime ts ISO_FMT) as [d|e'] eqn:Hs.
    + rewrite (parse_time_utc ts d Hz Hs). split; [done|].
      intros [_ H]. by destruct (H eq_refl).
    + rewrite (parse_time_fallback ts e' Hz Hs). split; [|by intros []].
      intros H. split; [done|]. by exists e'.
  - rewrite (parse_time_generic ts Hz). split; [|by intros []].
    by intros H.
Qed.

End ParseTimeFacts.

(** Claim C9, as amended.  For any behaviour of the two library parsers:
    a string that ends in the UTC marker and that the fixed format accepts
    is parsed as UTC; a string ending in the marker that the fixed format
    rejects, and every string not ending in it, is handed to the generic
    offset-aware parser with the marker rewritten to +00:00; and
    [parse_time] raises exactly when that generic parser raises (the
    attempt with the fixed format, when made, having failed). *)
Theorem parse_time_raises_with_generic_parser :
  forall (strptime : string -> string -> result datetime)
         (fromisoformat : string -> result datetime) (ts : string),
    let generic := fromisoformat (PyStr.replace ts "Z" "+00:00") in
    (forall d, PyStr.endswith ts "Z" = true ->
               strptime ts Utils.ISO_FMT = Ok d ->
               Utils.parse_time strptime fromisoformat ts
               = Ok (replace_tzinfo d timezone_utc))
    /\ (forall e, PyStr.endswith ts "Z" = true ->
                  strptime ts Utils.ISO_FMT = Raise e ->
                  Utils.parse_time strptime fromisoformat ts = generic)
    /\ (PyStr.endswith ts "Z" = false ->
        Utils.parse_time strptime fromisoformat ts = generic)
    /\ (forall e, Utils.parse_time strptime fromisoformat ts = Raise e
                  <-> generic = Raise e
                      /\ (PyStr.endswith ts "Z" = true ->
                          exists e', strptime ts Utils.ISO_FMT = Raise e')).
Proof.
  intros strptime fromisoformat ts generic.
  split; [intros d; apply parse_time_utc|].
  split; [intros e; apply parse_time_fallback|].
  split; [apply parse_time_generic|].
  intros e. apply parse_time_raises_iff.
Qed.

(** With the parsers of the library: a Zulu time is parsed as UTC, a
    Zulu time with a fraction goes through the generic parser, and so
    does a time with an offset. *)
Lemma parse_time_raises_with_generic_parser_witness :
  Utils.parse_time PyDatetime.strptime PyDatetime.fromisoformat "2024-01-01T10:00:00Z"
    = Ok {| wall := 1704103200000000; tzinfo := Some 0%Z |}
  /\ Utils.parse_time PyDatetime.strptime PyDatetime.fromisoformat
       "2024-01-01T10:00:00.500Z"
     = PyDatetime.fromisoformat "2024-01-01T10:00:00.500+00:00"
  /\ Utils.parse_time PyDatetime.strptime PyDatetime.fromisoformat
       "2024-01-01T12:00:00+02:00"
     = PyDatetime.fromisoformat "2024-01-01T12:00:00+02:00".
Proof.
  split.
  - destruct (parse_time_raises_with_generic_parser
                PyDatetime.strptime PyDatetime.fromisoformat "2024-01-01T10:00:00Z")
      as (Hutc & _).
    apply (Hutc {| wall := 1704103200000000; tzinfo := None |}); reflexivity.
  - split.
    + destruct (parse_time_raises_with_generic_parser
                  PyDatetime.strptime PyDatetime.fromisoformat
                  "2024-01-01T10:00:00.500Z") as (_ & Hfb & _).
      apply (Hfb ValueError); reflexivity.
    + destruct (parse_time_raises_with_generic_parser
                  PyDatetime.strptime PyDatetime.fromisoformat
                  "2024-01-01T12:00:00+02:00") as (_ & _ & Hgen & _).
      apply Hgen; reflexivity.
Defined.

(** Claim C9 as stated fails: on a string that neither parser accepts
    the exception of the generic parser reaches the caller, with or
    without the UTC marker. *)
Lemma parse_time_raises_on_unparseable_text :
  Utils.parse_time PyDatetime.strptime PyDatetime.fromisoformat "not a time"
    = Raise ValueError
  /\ Utils.parse_time PyDatetime.strptime PyDatetime.fromisoformat "yesterdayZ"
     = Raise ValueError.
Proof. split; reflexivity. Qed.

(* ===================================================================== *)
(** ** fhir_io.py: theorems *)
(* ===================================================================== *)

Section Extraction.
Import FhirIo PyStr.
Local Open Scope string_scope.
Variable strptime : string -> string -> result datetime.
Variable fromisoformat : string -> result datetime.
Variable merge_asof :
  list (Z * pyfloat) -> list (Z * pyfloat) -> Z -> list (Z * pyfloat * pyfloat).

Lemma keyword_metric_known (text m : string) :
  keyword_metric DISPLAY_KEYWORDS text = Some m -> In m Main.METRICS.
Proof.
  unfold DISPLAY_KEYWORDS. cbn [keyword_metric].
  repeat match goal with
         | |- context [if existsb ?f ?l then _ else _] => destruct (existsb f l)
         end; intros [= <-]; cbn; tauto.
Qed.

Lemma loinc_metric_known (c : string) (e : string * string) :
  LOINC_MAP !! c = Some e -> In (fst e) Main.METRICS.
Proof.
  unfold LOINC_MAP. intros H%elem_of_list_to_map_2.
  repeat (apply elem_of_cons in H as [[= -> ->]|H]; [cbn; tauto|]).
  by apply elem_of_nil in H.
Qed.

Lemma resolve_metric_known (o : observation) (m : string) :
  resolve_metric o = Some m -> In m Main.METRICS.
Proof.
  unfold resolve_metric.
  destruct (match match code o with Some c => cc_coding c | None => [] end with
            | [] => _ | _ :: _ => _ end) as [c display].
  destruct (if truthy c then LOINC_MAP !! default "" c else None)
    as [entry|] eqn:Hl.
  - intros [= <-]. destruct (truthy c); [|done]. by eapply loinc_metric_known.
  - apply keyword_metric_known.
Qed.

Lemma obs_entry_metric_known (o : observation) (e : entry) :
  _obs_entry_to_row strptime fromisoformat o = Ok (Some e) ->
  In (e_metric e) Main.METRICS.
Proof.
  unfold _obs_entry_to_row.
  destruct (resolve_metric o) as [m|] eqn:Hm; [|by cbn].
  apply resolve_metric_known in Hm.
  destruct (negb (truthy (Some m))); [done|].
  destruct (Utils.safe_float _); [|done].
  destruct (negb (truthy _)); [done|].
  destruct (Utils.parse_time _ _ _); [|done].
  by intros [= <-].
Qed.

Lemma collect_rows_metric_known (observations : list observation)
    (subject : string) : forall rows,
  collect_rows strptime fromisoformat observations subject = Ok rows ->
  Forall (fun r => In (metric r) Main.METRICS) rows.
Proof.
  induction observations as [|o rest IH]; intros rows; cbn [collect_rows].
  - by intros [= <-].
  - destruct (_obs_entry_to_row strptime fromisoformat o) as [r|] eqn:Ho;
      [|done]. cbn [mbind result_bind].
    destruct (collect_rows strptime fromisoformat rest subject) as [rows'|];
      [|done]. cbn [mbind result_bind].
    specialize (IH rows' eq_refl). intros [= <-].
    destruct r as [e|]; [|done].
    constructor; [|done]. by eapply obs_entry_metric_known.
Qed.

Lemma insert_sorted_Forall {A} (key : A -> Z) (P : A -> Prop) (r : A) (df : list A) :
  P r -> Forall P df -> Forall P (insert_sorted key r df).
Proof.
  intros Hr. induction 1 as [|x df' Hx Hdf IH]; cbn [insert_sorted].
  - by constructor.
  - destruct (key r <=? key x)%Z; repeat constructor; done.
Qed.

Lemma sort_values_Forall {A} (key : A -> Z) (P : A -> Prop) (df : list A) :
  Forall P df -> Forall P (sort_values key df).
Proof.
  unfold sort_values. induction 1; cbn [foldr]; [done|].
  by apply insert_sorted_Forall.
Qed.

(** No row whose metric is one of the canonical names satisfies the
    test that opens the derivation of MAP. *)
Lemma blood_pressure_guard_false (df : list obs_row) :
  Forall (fun r => In (metric r) Main.METRICS) df ->
  existsb (fun r => mem (metric r) ["8480-6"; "8462-4"]) df = false.
Proof.
  induction 1 as [|r df' Hr Hdf IH]; cbn [existsb]; [done|].
  rewrite IH, orb_false_r.
  cbn in Hr. by repeat destruct Hr as [<-|Hr].
Qed.

Lemma observations_to_df_sorted_rows (observations : list observation)
    (subject : string) :
  observations_to_df strptime fromisoformat merge_asof observations subject
  = rows ← collect_rows strptime fromisoformat observations subject;
    Ok (sort_values effective rows).
Proof.
  unfold observations_to_df.
  destruct (collect_rows strptime fromisoformat observations subject)
    as [rows|] eqn:Hrows; [|done]. cbn [mbind result_bind].
  destruct rows as [|r rows]; [done|].
  rewrite blood_pressure_guard_false; [done|].
  apply sort_values_Forall. by eapply collect_rows_metric_known.
Qed.

End Extraction.

(** Claim C3.  Whatever the time parsers and the nearest-time join do,
    [observations_to_df] returns the collected rows sorted by time and
    nothing else: the metric of a row is always one of the eight canonical
    names, never a blood-pressure code, so the derivation of MAP is never
    entered.  The systolic reading of 120 and the diastolic reading of 80
    two minutes later are both dropped and no MAP row is produced. *)
Theorem observations_to_df_never_derives_map :
  forall (strptime : string -> string -> result datetime)
         (fromisoformat : string -> result datetime)
         (merge_asof : list (Z * pyfloat) -> list (Z * pyfloat) -> Z ->
                       list (Z * pyfloat * pyfloat)),
    FhirIo.observations_to_df strptime fromisoformat merge_asof
      [systolic_120; diastolic_80] "a" = Ok []
    /\ forall observations subject,
         FhirIo.observations_to_df strptime fromisoformat merge_asof
           observations subject
         = rows ← FhirIo.collect_rows strptime fromisoformat observations subject;
           Ok (FhirIo.sort_values FhirIo.effective rows).
Proof.
  intros strptime fromisoformat merge_asof.
  split; [|apply observations_to_df_sorted_rows].
  rewrite observations_to_df_sorted_rows. reflexivity.
Qed.

(* ===================================================================== *)
(** ** main.py: theorems *)
(* ===================================================================== *)

Section Orchestrator.
Import PyStr Utils Scoring FhirIo Main Rules.
Local Open Scope string_scope.

(** The series of a metric: the times and values of its rows, in the
    order of the frame. *)
Lemma get_series_build_metrics (obs_df : list obs_row) (m : string) :
  In m METRICS ->
  get_series (build_metrics obs_df) m
  = map (fun r => (effective r, value r))
        (List.filter (fun r => String.eqb (metric r) m) obs_df).
Proof.
  intros Hm. cbn in Hm.
  repeat destruct Hm as [<-|Hm]; try reflexivity. done.
Qed.

Lemma in_series (obs_df : list obs_row) (m : string) (rt : Z) (v : pyfloat) :
  In m METRICS ->
  In (rt, v) (get_series (build_metrics obs_df) m)
  <-> exists r, In r obs_df /\ metric r = m /\ effective r = rt /\ value r = v.
Proof.
  intros Hm. rewrite (get_series_build_metrics _ _ Hm), in_map_iff.
  split.
  - intros (r & [= <- <-] & [Hin Heq%String.eqb_eq]%filter_In). by exists r.
  - intros (r & Hin & Hmet & <- & <-). exists r. split; [done|].
    apply filter_In. split; [done|]. by apply String.eqb_eq.
Qed.

Lemma latest_within_series_none (obs_df : list obs_row) (m : string) (t : Z) :
  In m METRICS ->
  (forall r, In r obs_df -> metric r = m ->
             ~ in_window t WINDOW_HOURS (effective r)) ->
  latest_within (get_series (build_metrics obs_df) m) t WINDOW_HOURS = None.
Proof.
  intros Hm Hnone. apply latest_within_none.
  intros rt v (r & Hin & Hmet & <- & _)%(in_series _ _ _ _ Hm). by apply Hnone.
Qed.

Lemma latest_within_series_some (obs_df : list obs_row) (m : string) (t : Z) :
  In m METRICS ->
  (exists r, In r obs_df /\ metric r = m
             /\ in_window t WINDOW_HOURS (effective r)) ->
  exists r, In r obs_df /\ metric r = m
    /\ in_window t WINDOW_HOURS (effective r)
    /\ latest_within (get_series (build_metrics obs_df) m) t WINDOW_HOURS
       = Some (value r).
Proof.
  intros Hm (r0 & Hin0 & Hmet0 & Hw0).
  destruct (latest_within_some (get_series (build_metrics obs_df) m)
              t WINDOW_HOURS (effective r0) (value r0))
    as (rt & v & Heq & Hin & Hw & _); [|done|].
  { apply in_series; [done|]. by exists r0. }
  apply in_series in Hin as (r & Hin & Hmet & <- & <-); [|done].
  by exists r.
Qed.

End Orchestrator.

(** Claim C7.  At every instant [t] with no GCS observation in the
    look-back window, the lookup returns unknown, the loop body puts 15 in
    its place before it calls [score_cns], and the CNS component is 0.
    [score_cns] itself maps 15 to 0 and unknown to unknown: the
    substitution is made by the caller. *)
Theorem missing_gcs_is_scored_as_15 :
  forall (obs_df : list FhirIo.obs_row) (meds_df : list FhirIo.med_row) (t : Z),
    (forall r, In r obs_df -> FhirIo.metric r = "GCS"%string ->
               ~ Rules.in_window t Main.WINDOW_HOURS (FhirIo.effective r)) ->
    let rd := Main.read_at (Main.build_metrics obs_df)
                           (Main.build_pressor_times meds_df) t in
    Utils.latest_within (Main.get_series (Main.build_metrics obs_df) "GCS")
      t Main.WINDOW_HOURS = None
    /\ Main.gcs rd = Some (Fin 15)
    /\ In ("CNS"%string, Some 0%Z) (Main.components rd)
    /\ Scoring.score_cns (Some (Fin 15)) = Some 0%Z
    /\ Scoring.score_cns None = None.
Proof.
  intros obs_df meds_df t Hnone rd.
  assert (Hlk : Utils.latest_within
                  (Main.get_series (Main.build_metrics obs_df) "GCS")
                  t Main.WINDOW_HOURS = None).
  { apply latest_within_series_none; [cbn; tauto | done]. }
  assert (Hgcs : Main.gcs rd = Some (Fin 15)).
  { subst rd. unfold Main.read_at. cbn [Main.gcs]. by rewrite Hlk. }
  split; [done|]. split; [done|]. split; [|done].
  unfold Main.components. rewrite Hgcs. cbn. tauto.
Qed.

(** On the chart, which has no GCS observation, the GCS read at the
    instant 0 is 15 and the CNS component is 0. *)
Lemma missing_gcs_is_scored_as_15_witness :
  Main.gcs (Main.read_at (Main.build_metrics chart) (Main.build_pressor_times []) 0)
    = Some (Fin 15)
  /\ In ("CNS"%string, Some 0%Z)
        (Main.components
           (Main.read_at (Main.build_metrics chart) (Main.build_pressor_times []) 0)).
Proof.
  destruct (missing_gcs_is_scored_as_15 chart [] 0) as (_ & Hgcs & Hcns & _).
  - intros r Hin Hm. cbn in Hin.
    repeat (destruct Hin as [<-|Hin]; [discriminate Hm|]). destruct Hin.
  - split; [exact Hgcs | exact Hcns].
Defined.

Section Completeness.
Import PyStr Utils Scoring FhirIo Main Rules.
Local Open Scope string_scope.
Local Open Scope Z_scope.

Variable subject : string.
Variable metrics : gmap string (list (Z * pyfloat)).
Variable pressor_times : gmap Z (gmap string pyfloat).

Implicit Types (t : Z) (times : list Z).

Lemma sofa_step_app rows out t :
  sofa_step subject metrics pressor_times (rows, out) t
  = ((rows ++ step_rows subject metrics pressor_times t)%list,
     (out ++ step_out subject metrics pressor_times t)%list).
Proof.
  unfold step_rows, step_out, sofa_step.
  destruct (existsb _ (components _)); [destruct (3 <=? _)%nat|];
    cbn [fst snd]; by rewrite ?app_nil_r.
Qed.

Lemma foldl_sofa_step times : forall rows out,
  foldl (sofa_step subject metrics pressor_times) (rows, out) times
  = ((rows ++ flat_map (step_rows subject metrics pressor_times) times)%list,
     (out ++ flat_map (step_out subject metrics pressor_times) times)%list).
Proof.
  induction times as [|t times IH]; intros rows out; cbn [foldl flat_map].
  - by rewrite !app_nil_r.
  - by rewrite sofa_step_app, IH, <- !app_assoc.
Qed.

Lemma existsb_none_missing (comps : list (string * option Z)) :
  existsb (fun kv => is_none (snd kv)) comps = true
  <-> missing_systems comps <> [].
Proof.
  unfold missing_systems. induction comps as [|[k [z|]] comps IH];
    cbn [existsb List.filter map is_none snd orb]; [done|done|].
  split; [done|]. done.
Qed.

Lemma step_rows_unknown t :
  missing_systems (components (read_at metrics pressor_times t)) <> [] ->
  step_rows subject metrics pressor_times t = [].
Proof.
  intros H%existsb_none_missing. unfold step_rows, sofa_step. rewrite H.
  by destruct (3 <=? _)%nat.
Qed.

Lemma step_out_diagnostic t :
  let missing := missing_systems (components (read_at metrics pressor_times t)) in
  (3 <= length missing)%nat ->
  step_out subject metrics pressor_times t = [Missing t missing].
Proof.
  intros missing Hlen.
  assert (H : existsb (fun kv => is_none (snd kv))
                (components (read_at metrics pressor_times t)) = true).
  { apply existsb_none_missing. fold missing. intros Heq.
    rewrite Heq in Hlen. cbn in Hlen. lia. }
  unfold step_out, sofa_step. rewrite H.
  fold (missing_systems (components (read_at metrics pressor_times t))).
  fold missing.
  by destruct (Nat.leb_spec 3 (length missing)); [|lia].
Qed.

Lemma step_rows_known t :
  missing_systems (components (read_at metrics pressor_times t)) = [] ->
  step_rows subject metrics pressor_times t
  = [{| patient_id := subject; sofa_score_datetime := t;
        sofa_score :=
          foldl Z.add 0 (omap snd (components (read_at metrics pressor_times t))) |}].
Proof.
  intros Hnil. unfold step_rows, sofa_step.
  destruct (existsb _ (components _)) eqn:H; [|done].
  by apply existsb_none_missing in H.
Qed.

Lemma step_rows_time t r :
  In r (step_rows subject metrics pressor_times t) -> sofa_score_datetime r = t.
Proof.
  unfold step_rows, sofa_step.
  destruct (existsb _ (components _)); [by destruct (3 <=? _)%nat|].
  by intros [<-|[]].
Qed.

Lemma rows_at_other t t' :
  t' <> t -> rows_at t (step_rows subject metrics pressor_times t') = [].
Proof.
  intros Hne. unfold rows_at.
  assert (Hall := step_rows_time t').
  induction (step_rows subject metrics pressor_times t') as [|r l IH];
    cbn [List.filter]; [done|].
  destruct (Z.eqb_spec (sofa_score_datetime r) t) as [Heq|_].
  - destruct Hne. rewrite <- Heq. symmetry. apply Hall. by left.
  - apply IH. intros r' Hr'. apply Hall. by right.
Qed.

Lemma rows_at_app t (rows rows' : list scored_row) :
  rows_at t (rows ++ rows') = (rows_at t rows ++ rows_at t rows')%list.
Proof. apply List.filter_app. Qed.

Lemma rows_at_absent t times :
  ~ In t times ->
  rows_at t (flat_map (step_rows subject metrics pressor_times) times) = [].
Proof.
  induction times as [|t' times IH]; intros Hnotin; [done|].
  cbn [flat_map]. rewrite rows_at_app, (rows_at_other t t'), IH; [done| |].
  - intros Hin. apply Hnotin. by right.
  - intros ->. apply Hnotin. by left.
Qed.

Lemma rows_at_flat_map t times :
  NoDup times -> In t times ->
  rows_at t (flat_map (step_rows subject metrics pressor_times) times)
  = rows_at t (step_rows subject metrics pressor_times t).
Proof.
  induction 1 as [|t' times Hnotin Hnd IH]; [done|].
  cbn [flat_map]. rewrite rows_at_app. intros [->|Hin].
  - rewrite (rows_at_absent t times), app_nil_r; [done|].
    intros Hin. apply Hnotin. by apply list_elem_of_In.
  - rewrite (rows_at_other t t'), IH; [done|done|].
    intros ->. apply Hnotin. by apply list_elem_of_In.
Qed.

End Completeness.

Section Totals.
Import PyStr Utils Scoring FhirIo Main Rules.
Local Open Scope string_scope.
Local Open Scope Z_scope.

Ltac range_solve :=
  repeat match goal with
         | |- context [if ?b then _ else _] => destruct b
         | |- context [match ?o with Some _ => _ | None => _ end] => destruct o
         end;
  try discriminate; intros [= <-]; lia.

Lemma score_resp_range pf sf on z : score_resp pf sf on = Some z -> 0 <= z <= 4.
Proof. unfold score_resp, score_resp_pf, score_resp_sf. range_solve. Qed.

Lemma score_coag_range v z : score_coag v = Some z -> 0 <= z <= 4.
Proof. unfold score_coag. range_solve. Qed.

Lemma score_liver_range v z : score_liver v = Some z -> 0 <= z <= 4.
Proof. unfold score_liver. range_solve. Qed.

Lemma score_cardio_range m p z : score_cardio m p = Some z -> 0 <= z <= 4.
Proof. rewrite score_cardio_rule. unfold cardio_rule. range_solve. Qed.

Lemma score_cns_range v z : score_cns v = Some z -> 0 <= z <= 4.
Proof. unfold score_cns. range_solve. Qed.

Lemma score_renal_range v z : score_renal v = Some z -> 0 <= z <= 4.
Proof. unfold score_renal. range_solve. Qed.

(** With no system missing the six components are six integers between
    0 and 4. *)
Lemma components_known (rd : readings) :
  missing_systems (components rd) = [] ->
  exists resp coag liver cardio cns renal,
    components rd
    = [("Resp", Some resp); ("Coag", Some coag); ("Liver", Some liver);
       ("Cardio", Some cardio); ("CNS", Some cns); ("Renal", Some renal)]
    /\ 0 <= resp <= 4 /\ 0 <= coag <= 4 /\ 0 <= liver <= 4
    /\ 0 <= cardio <= 4 /\ 0 <= cns <= 4 /\ 0 <= renal <= 4.
Proof.
  unfold components, missing_systems.
  destruct (score_resp _ _ _) as [resp|] eqn:Hresp; [|done].
  destruct (score_coag _) as [coag|] eqn:Hcoag; [|done].
  destruct (score_liver _) as [liver|] eqn:Hliver; [|done].
  destruct (score_cardio _ _) as [cardio|] eqn:Hcardio; [|done].
  destruct (score_cns _) as [cns|] eqn:Hcns; [|done].
  destruct (score_renal _) as [renal|] eqn:Hrenal; [|done].
  intros _. exists resp, coag, liver, cardio, cns, renal.
  split; [done|].
  split; [by eapply score_resp_range|].
  split; [by eapply score_coag_range|].
  split; [by eapply score_liver_range|].
  split; [by eapply score_cardio_range|].
  split; [by eapply score_cns_range|].
  by eapply score_renal_range.
Qed.

Lemma candidate_times_NoDup (obs_df : list obs_row) : NoDup (candidate_times obs_df).
Proof.
  unfold candidate_times, round_times_to_observation_ticks.
  rewrite merge_sort_Permutation. apply NoDup_elements.
Qed.

(** The rows of the result are the rows of the candidate times, in
    order. *)
Lemma compute_patient_sofa_rows subject obs_df meds_df :
  fst (compute_patient_sofa subject obs_df meds_df)
  = flat_map (step_rows subject (build_metrics obs_df) (build_pressor_times meds_df))
             (candidate_times obs_df).
Proof.
  unfold compute_patient_sofa. destruct obs_df as [|r obs_df]; [done|].
  fold (candidate_times (r :: obs_df)).
  by rewrite foldl_sofa_step.
Qed.

(** The lines printed contain the lines of every candidate time. *)
Lemma compute_patient_sofa_out subject obs_df meds_df t msg :
  In t (candidate_times obs_df) ->
  In msg (step_out subject (build_metrics obs_df) (build_pressor_times meds_df) t) ->
  In msg (snd (compute_patient_sofa subject obs_df meds_df)).
Proof.
  intros Ht Hmsg. unfold compute_patient_sofa.
  destruct obs_df as [|r obs_df]; [exfalso; vm_compute in Ht; exact Ht|].
  fold (candidate_times (r :: obs_df)).
  rewrite foldl_sofa_step. cbn [snd].
  apply in_or_app. left. apply in_or_app. right.
  apply in_flat_map. exists t. split; assumption.
Qed.

End Totals.

(** Claim C1.  For every candidate timestamp [t] of a patient: if some
    sub-score is unknown the result has no row for [t]; if at least three
    are unknown the line naming the missing systems is printed and there
    is still no row; if all six are known the result has exactly one row
    for [t], whose score is the sum of the six sub-scores and lies
    between 0 and 24. *)
Theorem completeness_policy :
  forall (subject : string) (obs_df : list FhirIo.obs_row)
         (meds_df : list FhirIo.med_row) (t : Z),
    In t (Rules.candidate_times obs_df) ->
    let comps := Main.components
                   (Main.read_at (Main.build_metrics obs_df)
                                 (Main.build_pressor_times meds_df) t) in
    let missing := Rules.missing_systems comps in
    let result := Main.compute_patient_sofa subject obs_df meds_df in
    (missing <> [] -> Rules.rows_at t (fst result) = [])
    /\ ((3 <= length missing)%nat ->
        In (Main.Missing t missing) (snd result)
        /\ Rules.rows_at t (fst result) = [])
    /\ (missing = [] ->
        exists resp coag liver cardio cns renal : Z,
          comps = [("Resp", Some resp); ("Coag", Some coag); ("Liver", Some liver);
                   ("Cardio", Some cardio); ("CNS", Some cns);
                   ("Renal", Some renal)]%string
          /\ Rules.rows_at t (fst result)
             = [{| Main.patient_id := subject; Main.sofa_score_datetime := t;
                   Main.sofa_score := resp + coag + liver + cardio + cns + renal |}]
          /\ 0 <= resp + coag + liver + cardio + cns + renal <= 24).
Proof.
  intros subject obs_df meds_df t Ht comps missing result.
  assert (Hrows : Rules.rows_at t (fst result)
                  = Rules.rows_at t
                      (Rules.step_rows subject (Main.build_metrics obs_df)
                         (Main.build_pressor_times meds_df) t)).
  { subst result. rewrite compute_patient_sofa_rows.
    apply rows_at_flat_map; [apply candidate_times_NoDup | done]. }
  assert (Hunknown : missing <> [] -> Rules.rows_at t (fst result) = []).
  { intros Hm. rewrite Hrows, step_rows_unknown; done. }
  split; [done|]. split.
  - intros Hlen. split.
    + apply (compute_patient_sofa_out subject obs_df meds_df t); [done|].
      rewrite step_out_diagnostic; [by left | done].
    + apply Hunknown. intros Heq. subst missing. rewrite Heq in Hlen.
      cbn in Hlen. lia.
  - intros Hnil.
    destruct (components_known _ Hnil)
      as (resp & coag & liver & cardio & cns & renal & Hc & ? & ? & ? & ? & ? & ?).
    exists resp, coag, liver, cardio, cns, renal.
    split; [done|]. split; [|lia].
    rewrite Hrows, step_rows_known by done.
    rewrite Hc. cbn [omap list_omap snd foldl Rules.rows_at List.filter
      Main.sofa_score_datetime].
    rewrite Z.eqb_refl. do 2 f_equal.
Qed.

(** On the chart: at the instant 0 every sub-score is known and the
    result has the one row with their sum; a minute later the creatinine
    of 1.95 has no renal score and the result has no row. *)
Lemma completeness_policy_witness :
  (exists resp coag liver cardio cns renal : Z,
     Main.components
       (Main.read_at (Main.build_metrics chart) (Main.build_pressor_times []) 0)
     = [("Resp", Some resp); ("Coag", Some coag); ("Liver", Some liver);
        ("Cardio", Some cardio); ("CNS", Some cns); ("Renal", Some renal)]%string
     /\ Rules.rows_at 0 (fst (Main.compute_patient_sofa "a" chart []))
        = [{| Main.patient_id := "a"%string; Main.sofa_score_datetime := 0;
              Main.sofa_score := resp + coag + liver + cardio + cns + renal |}]
     /\ 0 <= resp + coag + liver + cardio + cns + renal <= 24)
  /\ Rules.rows_at (timedelta_minutes 1) (fst (Main.compute_patient_sofa "a" chart []))
     = [].
Proof.
  split.
  - destruct (completeness_policy "a" chart [] 0) as (_ & _ & Hknown).
    + vm_compute. tauto.
    + apply Hknown. vm_compute. reflexivity.
  - destruct (completeness_policy "a" chart [] (timedelta_minutes 1)) as (Hunknown & _).
    + vm_compute. tauto.
    + apply Hunknown. vm_compute. discriminate.
Defined.

Section Fio2.
Import PyStr Utils Scoring FhirIo Main Rules.
Local Open Scope string_scope.

Lemma norm_fio2_percent_sign (raw : pyfloat) :
  norm_fio2 (Some raw) (Some "%") = Some (raw / 100%Q)%F.
Proof. reflexivity. Qed.

Lemma read_at_fio2 (obs_df : list obs_row) (meds_df : list med_row) (t : Z)
    (raw : pyfloat) :
  latest_within (get_series (build_metrics obs_df) "FiO2") t WINDOW_HOURS
    = Some raw ->
  let rd := read_at (build_metrics obs_df) (build_pressor_times meds_df) t in
  fio2_raw rd = Some raw
  /\ fio2 rd = Some (raw / 100%Q)%F
  /\ pf rd = ratio (pao2 rd) (Some (raw / 100%Q)%F)
  /\ sf rd = ratio (spo2 rd) (Some (raw / 100%Q)%F).
Proof.
  intros Hraw rd. subst rd. unfold read_at.
  cbn [fio2_raw fio2 pf sf pao2 spo2]. rewrite Hraw.
  by rewrite norm_fio2_percent_sign.
Qed.

Lemma series_with_unit (u : obs_row -> option string) (m : string)
    (obs_df : list obs_row) :
  map (fun r => (effective r, value r))
      (List.filter (fun r => String.eqb (metric r) m) (map (with_unit u) obs_df))
  = map (fun r => (effective r, value r))
        (List.filter (fun r => String.eqb (metric r) m) obs_df).
Proof.
  induction obs_df as [|r obs_df IH]; cbn [map List.filter]; [done|].
  cbn [with_unit metric]. destruct (String.eqb (metric r) m); cbn [map]; by rewrite IH.
Qed.

Lemma build_metrics_with_unit (u : obs_row -> option string) (obs_df : list obs_row) :
  build_metrics (map (with_unit u) obs_df) = build_metrics obs_df.
Proof.
  unfold build_metrics, METRICS. cbn [foldl]. by rewrite !series_with_unit.
Qed.

Lemma compute_patient_sofa_with_unit (u : obs_row -> option string)
    (subject : string) (obs_df : list obs_row) (meds_df : list med_row) :
  compute_patient_sofa subject (map (with_unit u) obs_df) meds_df
  = compute_patient_sofa subject obs_df meds_df.
Proof.
  unfold compute_patient_sofa.
  rewrite build_metrics_with_unit, length_map, map_map.
  cbn [with_unit effective].
  by destruct obs_df.
Qed.

End Fio2.

(** Claim C10.  At every instant [t] with a FiO2 observation in the
    look-back window, the raw value the lookup returns is divided by 100
    before it enters the two ratios, whatever it is and whatever unit its
    row carries: the result of [compute_patient_sofa] is the same when the
    unit strings of the frame are replaced by any others, and a FiO2
    recorded as the fraction 0.35 is used as 0.0035. *)
Theorem fio2_is_always_divided_by_100 :
  (forall (obs_df : list FhirIo.obs_row) (meds_df : list FhirIo.med_row) (t : Z),
     (exists r, In r obs_df /\ FhirIo.metric r = "FiO2"%string
                /\ Rules.in_window t Main.WINDOW_HOURS (FhirIo.effective r)) ->
     let rd := Main.read_at (Main.build_metrics obs_df)
                            (Main.build_pressor_times meds_df) t in
     exists r, In r obs_df /\ FhirIo.metric r = "FiO2"%string
       /\ Rules.in_window t Main.WINDOW_HOURS (FhirIo.effective r)
       /\ Main.fio2_raw rd = Some (FhirIo.value r)
       /\ Main.fio2 rd = Some (FhirIo.value r / 100%Q)%F
       /\ Main.pf rd = Main.ratio (Main.pao2 rd) (Some (FhirIo.value r / 100%Q)%F)
       /\ Main.sf rd = Main.ratio (Main.spo2 rd) (Some (FhirIo.value r / 100%Q)%F))
  /\ (forall (u : FhirIo.obs_row -> option string) (subject : string)
             (obs_df : list FhirIo.obs_row) (meds_df : list FhirIo.med_row),
        Main.compute_patient_sofa subject (map (Rules.with_unit u) obs_df) meds_df
        = Main.compute_patient_sofa subject obs_df meds_df)
  /\ Utils.norm_fio2 (Some (Fin 0.35)) (Some "%"%string) ≃ Some (Fin 0.0035).
Proof.
  split; [|split; [apply compute_patient_sofa_with_unit | by vm_compute]].
  intros obs_df meds_df t Hex rd.
  destruct (latest_within_series_some obs_df "FiO2" t) as (r & Hin & Hm & Hw & Hlk);
    [cbn; tauto | done |].
  exists r. split; [done|]. split; [done|]. split; [done|].
  by apply read_at_fio2.
Qed.

(** On the chart the FiO2 of 0.35, recorded without unit, is divided by
    100 at the instant 0. *)
Lemma fio2_is_always_divided_by_100_witness :
  exists r, In r chart /\ FhirIo.metric r = "FiO2"%string
    /\ Rules.in_window 0 Main.WINDOW_HOURS (FhirIo.effective r)
    /\ Main.fio2_raw (Main.read_at (Main.build_metrics chart)
                                   (Main.build_pressor_times []) 0)
       = Some (FhirIo.value r)
    /\ Main.fio2 (Main.read_at (Main.build_metrics chart)
                               (Main.build_pressor_times []) 0)
       = Some (FhirIo.value r / 100%Q)%F
    /\ Main.pf (Main.read_at (Main.build_metrics chart)
                             (Main.build_pressor_times []) 0)
       = Main.ratio (Main.pao2 (Main.read_at (Main.build_metrics chart)
                                             (Main.build_pressor_times []) 0))
                    (Some (FhirIo.value r / 100%Q)%F)
    /\ Main.sf (Main.read_at (Main.build_metrics chart)
                             (Main.build_pressor_times []) 0)
       = Main.ratio (Main.spo2 (Main.read_at (Main.build_metrics chart)
                                             (Main.build_pressor_times []) 0))
                    (Some (FhirIo.value r / 100%Q)%F).
Proof.
  destruct fio2_is_always_divided_by_100 as (Hfio2 & _).
  apply (Hfio2 chart [] 0).
  exists (chart_row "FiO2" 0.35 None 0).
  split; [right; left; reflexivity|].
  split; [reflexivity|].
  unfold Rules.in_window. vm_compute. split; discriminate.
Defined.

(* ===================================================================== *)
(** ** utils.py: further properties *)
(* ===================================================================== *)

Section TicksFacts.
Import Utils.

Lemma sorted_le_NoDup_lt (l : list Z) :
  StronglySorted Z.le l -> NoDup l -> StronglySorted Z.lt l.
Proof.
  induction 1 as [|x l Hs IH Hall]; intros Hnd; [constructor|].
  apply NoDup_cons in Hnd as [Hx Hnd]. constructor; [by apply IH|].
  apply Forall_forall. intros y Hy.
  rewrite Forall_forall in Hall. specialize (Hall y Hy).
  assert (x <> y) by (intros ->; apply Hx; by apply list_elem_of_In).
  lia.
Qed.

Lemma round_times_members (times : list Z) (t : Z) :
  In t (round_times_to_observation_ticks times) <-> In t times.
Proof.
  unfold round_times_to_observation_ticks.
  rewrite <- !list_elem_of_In, merge_sort_Permutation, elem_of_elements.
  apply elem_of_list_to_set.
Qed.

Lemma round_times_sorted (times : list Z) :
  StronglySorted Z.lt (round_times_to_observation_ticks times).
Proof.
  apply sorted_le_NoDup_lt.
  - unfold round_times_to_observation_ticks.
    apply (StronglySorted_merge_sort Z.le).
  - unfold round_times_to_observation_ticks.
    rewrite merge_sort_Permutation. apply NoDup_elements.
Qed.

End TicksFacts.

(** X1.  The candidate ticks are the given times without repetition and
    in strictly increasing order: every time of the input is a tick, every
    tick is a time of the input, and each tick is smaller than all the ticks
    after it. *)
Theorem round_times_strictly_increasing :
  forall (times : list Z),
    StronglySorted Z.lt (Utils.round_times_to_observation_ticks times)
    /\ forall t, In t (Utils.round_times_to_observation_ticks times) <-> In t times.
Proof.
  intros times. split; [apply round_times_sorted|].
  intros t. apply round_times_members.
Qed.

Section LatestWithinOrder.
Import Utils Rules.
Context {V : Type}.
Implicit Types (records : list (Z * V)) (t w rt : Z) (v : V).

(** Once a reading is held, later readings that are not newer leave the
    pair unchanged. *)
Lemma latest_fold_keep t w rt v (l2 : list (Z * V)) :
  (forall rt' v', In (rt', v') l2 -> in_window t w rt' -> (rt' <= rt)%Z) ->
  fold_left (latest_step (t - timedelta_hours w) t) l2 (Some rt, Some v)
  = (Some rt, Some v).
Proof.
  induction l2 as [|[rt' v'] l2 IH]; intros Hle; cbn [fold_left]; [done|].
  assert (Hstep : latest_step (t - timedelta_hours w) t (Some rt, Some v) (rt', v')
                  = (Some rt, Some v)).
  { cbn [latest_step].
    destruct (Z.leb_spec (t - timedelta_hours w) rt'), (Z.leb_spec rt' t);
      cbn [andb]; try done.
    destruct (Z.gtb_spec rt' rt); [|done].
    assert (rt' <= rt)%Z; [|lia].
    apply (Hle rt' v'); [by left | unfold in_window; lia]. }
  rewrite Hstep. apply IH. intros rt2 v2 Hin. apply (Hle rt2 v2). by right.
Qed.

Lemma latest_within_first_max (l1 : list (Z * V)) rt v (l2 : list (Z * V)) t w :
  in_window t w rt ->
  (forall rt' v', In (rt', v') l1 -> in_window t w rt' -> (rt' < rt)%Z) ->
  (forall rt' v', In (rt', v') l2 -> in_window t w rt' -> (rt' <= rt)%Z) ->
  latest_within (l1 ++ (rt, v) :: l2) t w = Some v.
Proof.
  intros Hw Hlt Hle. unfold latest_within.
  rewrite fold_left_app. cbn [fold_left].
  pose proof (latest_fold_inv t w l1 [] (None, None)) as Hinv.
  cbn [app] in Hinv.
  assert (Hstep : latest_step (t - timedelta_hours w) t
                    (fold_left (latest_step (t - timedelta_hours w) t) l1 (None, None))
                    (rt, v) = (Some rt, Some v)).
  { destruct (fold_left _ l1 (None, None)) as [[lt|] [lv|]];
      cbn [latest_inv latest_step] in *.
    - destruct Hinv as (Hin & Hwl & _); [by intros ? ? []|].
      specialize (Hlt _ _ Hin Hwl). unfold in_window in Hw.
      destruct (Z.leb_spec (t - timedelta_hours w) rt), (Z.leb_spec rt t);
        try lia. cbn [andb]. by destruct (Z.gtb_spec rt lt); [|lia].
    - destruct Hinv. by intros ? ? [].
    - destruct Hinv. by intros ? ? [].
    - unfold in_window in Hw.
      by destruct (Z.leb_spec (t - timedelta_hours w) rt), (Z.leb_spec rt t);
        try lia. }
  rewrite Hstep, latest_fold_keep; done.
Qed.

(** The reading the loop holds is the first of the newest readings in the
    window. *)
Lemma latest_fold_split t w records :
  match fold_left (latest_step (t - timedelta_hours w) t) records (None, None) with
  | (Some lt, Some lv) =>
      exists l1 l2, records = l1 ++ (lt, lv) :: l2 /\ in_window t w lt
        /\ (forall rt' v', In (rt', v') l1 -> in_window t w rt' -> (rt' < lt)%Z)
        /\ (forall rt' v', In (rt', v') l2 -> in_window t w rt' -> (rt' <= lt)%Z)
  | (None, None) => forall rt v, In (rt, v) records -> ~ in_window t w rt
  | _ => False
  end.
Proof.
  induction records as [|[rt v] records IH] using rev_ind; [by intros ? ? []|].
  rewrite fold_left_app. cbn [fold_left].
  destruct (fold_left _ records (None, None)) as [[lt|] [lv|]];
    cbn [latest_step]; try done.
  - destruct IH as (l1 & l2 & -> & Hw & Hlt & Hle).
    destruct (Z.leb_spec (t - timedelta_hours w) rt), (Z.leb_spec rt t);
      cbn [andb]; [destruct (Z.gtb_spec rt lt)| | |].
    + exists (l1 ++ (lt, lv) :: l2), []. split; [done|].
      split; [unfold in_window; lia|]. split; [|by intros ? ? []].
      intros rt' v' [Hin|[[= <- <-]|Hin]]%in_app_or Hw'; [|lia|].
      * specialize (Hlt _ _ Hin Hw'). lia.
      * specialize (Hle _ _ Hin Hw'). lia.
    + exists l1, (l2 ++ [(rt, v)]). rewrite <- app_assoc. split; [done|].
      split; [done|]. split; [done|].
      intros rt' v' [Hin|[[= <- <-]|[]]]%in_app_or Hw'; [by eapply Hle | lia].
    + exists l1, (l2 ++ [(rt, v)]). rewrite <- app_assoc. split; [done|].
      split; [done|]. split; [done|].
      intros rt' v' [Hin|[[= <- <-]|[]]]%in_app_or Hw';
        [by eapply Hle | unfold in_window in Hw'; lia].
    + exists l1, (l2 ++ [(rt, v)]). rewrite <- app_assoc. split; [done|].
      split; [done|]. split; [done|].
      intros rt' v' [Hin|[[= <- <-]|[]]]%in_app_or Hw';
        [by eapply Hle | unfold in_window in Hw'; lia].
    + exists l1, (l2 ++ [(rt, v)]). rewrite <- app_assoc. split; [done|].
      split; [done|]. split; [done|].
      intros rt' v' [Hin|[[= <- <-]|[]]]%in_app_or Hw';
        [by eapply Hle | unfold in_window in Hw'; lia].
  - destruct (Z.leb_spec (t - timedelta_hours w) rt), (Z.leb_spec rt t);
      cbn [andb].
    + exists records, []. split; [done|]. split; [unfold in_window; lia|].
      split; [|by intros ? ? []].
      intros rt' v' Hin Hw'. by destruct (IH _ _ Hin).
    + intros rt' v' [Hin|[[= <- <-]|[]]]%in_app_or;
        [by apply (IH _ _ Hin) | unfold in_window; lia].
    + intros rt' v' [Hin|[[= <- <-]|[]]]%in_app_or;
        [by apply (IH _ _ Hin) | unfold in_window; lia].
    + intros rt' v' [Hin|[[= <- <-]|[]]]%in_app_or;
        [by apply (IH _ _ Hin) | unfold in_window; lia].
Qed.

Lemma latest_within_split records t w v :
  latest_within records t w = Some v ->
  exists l1 rt l2, records = l1 ++ (rt, v) :: l2 /\ in_window t w rt
    /\ (forall rt' v', In (rt', v') l1 -> in_window t w rt' -> (rt' < rt)%Z)
    /\ (forall rt' v', In (rt', v') l2 -> in_window t w rt' -> (rt' <= rt)%Z).
Proof.
  unfold latest_within. pose proof (latest_fold_split t w records) as H.
  destruct (fold_left _ records (None, None)) as [[lt|] [lv|]]; cbn [snd];
    try done.
  intros [= ->]. destruct H as (l1 & l2 & ?). by exists l1, lt, l2.
Qed.

Lemma latest_within_wider records t w w' v :
  (w <= w')%Z ->
  latest_within records t w = Some v -> latest_within records t w' = Some v.
Proof.
  intros Hww (l1 & rt & l2 & -> & Hw & Hlt & Hle)%latest_within_split.
  unfold in_window, timedelta_hours in *.
  apply latest_within_first_max; unfold in_window, timedelta_hours.
  - lia.
  - intros rt' v' Hin Hw'.
    destruct (Z.le_gt_cases (t - w * 3600000000) rt'); [|lia].
    apply (Hlt rt' v' Hin). lia.
  - intros rt' v' Hin Hw'.
    destruct (Z.le_gt_cases (t - w * 3600000000) rt'); [|lia].
    apply (Hle rt' v' Hin). lia.
Qed.

End LatestWithinOrder.

(** X2.  Among the readings of the window the newest is returned, and of
    several readings with that same newest timestamp the first in the
    order of the series: when a reading in the window is preceded only by
    strictly older readings of the window and followed only by readings of
    the window that are not newer, its value is the result. *)
Theorem latest_within_first_of_the_newest :
  forall (V : Type) (l1 l2 : list (Z * V)) (rt : Z) (v : V) (t w : Z),
    Rules.in_window t w rt ->
    (forall rt' v', In (rt', v') l1 -> Rules.in_window t w rt' -> (rt' < rt)%Z) ->
    (forall rt' v', In (rt', v') l2 -> Rules.in_window t w rt' -> (rt' <= rt)%Z) ->
    Utils.latest_within (l1 ++ (rt, v) :: l2) t w = Some v.
Proof. intros V l1 l2 rt v t w. apply latest_within_first_max. Qed.

(** Two readings at the instant 50: the first one is returned, also when
    an older reading stands before them and a reading of the future
    after them. *)
Lemma latest_within_first_of_the_newest_witness :
  Utils.latest_within ([(10, 1)] ++ (50, 2) :: [(50, 3); (70, 4)])%Z 60 6 = Some 2%Z.
Proof.
  apply latest_within_first_of_the_newest.
  - unfold Rules.in_window, timedelta_hours. lia.
  - intros rt' v' [[= <- <-]|[]] _. lia.
  - intros rt' v' [[= <- <-]|[[= <- <-]|[]]]; unfold Rules.in_window; lia.
Defined.

(** X3.  A value found with a look-back window of [w] hours is found
    unchanged with any wider window: widening the window can only turn an
    unknown into a value. *)
Theorem latest_within_wider_window :
  forall (V : Type) (records : list (Z * V)) (t w w' : Z) (v : V),
    (w <= w')%Z ->
    Utils.latest_within records t w = Some v ->
    Utils.latest_within records t w' = Some v.
Proof. intros V records t w w' v. apply latest_within_wider. Qed.

(** The strict window of 6 hours and the relaxed window of 24 hours. *)
Lemma latest_within_wider_window_witness :
  Utils.latest_within [(0, 7); (timedelta_hours 20, 8)]%Z (timedelta_hours 24) 24
  = Some 8%Z.
Proof.
  apply (latest_within_wider_window Z _ _ 6 24); [lia | reflexivity].
Defined.

Section NormFio2Range.
Import Utils Rules.
Local Open Scope Q_scope.

Lemma fdiv_100 (q : Q) : (Fin q / 100)%F = Fin (q * (1 # 100)).
Proof. reflexivity. Qed.

Lemma norm_fio2_range (q : Q) (unit : option string) :
  0 <= q <= 100 ->
  exists q', norm_fio2 (Some (Fin q)) unit = Some (Fin q')
    /\ 0 <= q' <= 1.5
    /\ (indicates_percent unit = true \/ 1.5 < q -> q' <= 1).
Proof.
  intros Hq. destruct (indicates_percent unit) eqn:Hu.
  - rewrite (norm_fio2_percent _ _ Hu), fdiv_100.
    eexists. split; [done|]. split; [lra|]. intros _. lra.
  - rewrite (norm_fio2_other _ _ Hu), fdiv_100.
    unfold fgt. cbn [flt]. unfold Qlt_bool.
    destruct (Qle_bool_reflect q 1.5).
    + exists q. split; [done|]. split; [lra|]. intros [?|?]; [done|lra].
    + eexists. split; [done|]. split; [lra|]. intros _. lra.
Qed.

End NormFio2Range.

(** X4.  A FiO2 reading between 0 and 100, whatever its unit, is
    normalised to a finite value between 0 and 1.5; the value is at most 1
    whenever the unit indicates a percentage or the reading is above 1.5.
    (A reading in (1, 1.5] without a percent unit passes through.) *)
Theorem norm_fio2_of_a_percentage_is_a_fraction :
  forall (q : Q) (unit : option string),
    (0 <= q <= 100)%Q ->
    exists q', Utils.norm_fio2 (Some (Fin q)) unit = Some (Fin q')
      /\ (0 <= q' <= 1.5)%Q
      /\ (Rules.indicates_percent unit = true \/ (1.5 < q)%Q -> (q' <= 1)%Q).
Proof. exact norm_fio2_range. Qed.

Lemma norm_fio2_of_a_percentage_is_a_fraction_witness :
  exists q', Utils.norm_fio2 (Some (Fin 40)) (Some "mmHg"%string) = Some (Fin q')
    /\ (0 <= q' <= 1.5)%Q
    /\ (Rules.indicates_percent (Some "mmHg"%string) = true \/ (1.5 < 40)%Q
        -> (q' <= 1)%Q).
Proof.
  apply (norm_fio2_of_a_percentage_is_a_fraction 40 (Some "mmHg"%string)).
  split; by vm_compute.
Defined.

Section ScoreOrder.
Import Scoring.

(** Decide the comparisons, then read the two scores off the equations. *)
Ltac order_solve :=
  float_unfold; q_cases; cbn [negb andb orb]; intros;
  try discriminate; try (exfalso; lra);
  repeat match goal with
         | H : Some _ = Some _ |- _ => injection H as <-
         end;
  try lia.

Lemma score_coag_antitone (a b : pyfloat) (x y : Z) :
  (a <=? b)%F = true -> score_coag (Some a) = Some x -> score_coag (Some b) = Some y ->
  (y <= x)%Z.
Proof.
  unfold score_coag. destruct a as [p| | |], b as [q| | |]; order_solve.
Qed.

Lemma score_liver_monotone (a b : pyfloat) (x y : Z) :
  (a <=? b)%F = true -> score_liver (Some a) = Some x -> score_liver (Some b) = Some y ->
  (x <= y)%Z.
Proof.
  unfold score_liver. destruct a as [p| | |], b as [q| | |]; order_solve.
Qed.

Lemma score_renal_monotone (a b : pyfloat) (x y : Z) :
  (a <=? b)%F = true -> score_renal (Some a) = Some x -> score_renal (Some b) = Some y ->
  (x <= y)%Z.
Proof.
  unfold score_renal. destruct a as [p| | |], b as [q| | |]; order_solve.
Qed.

Lemma score_cns_antitone (a b : pyfloat) (x y : Z) :
  (a <=? b)%F = true -> score_cns (Some a) = Some x -> score_cns (Some b) = Some y ->
  (y <= x)%Z.
Proof.
  unfold score_cns. destruct a as [p| | |], b as [q| | |]; order_solve.
Qed.

Lemma score_resp_pf_antitone (a b : pyfloat) (sf sf' : option pyfloat)
    (on on' : bool) (x y : Z) :
  isfinite a = true -> isfinite b = true -> (a <=? b)%F = true ->
  score_resp (Some a) sf on = Some x -> score_resp (Some b) sf' on' = Some y ->
  (y <= x)%Z.
Proof.
  unfold score_resp, score_resp_pf.
  destruct a as [p| | |], b as [q| | |]; try done; intros _ _.
  cbn [known_and isfinite]. order_solve.
Qed.

Lemma score_resp_sf_antitone (a b : pyfloat) (on : bool) (x y : Z) :
  (a <=? b)%F = true ->
  score_resp None (Some a) on = Some x -> score_resp None (Some b) on = Some y ->
  (y <= x)%Z.
Proof.
  unfold score_resp, score_resp_sf.
  destruct a as [p| | |], b as [q| | |]; cbn [known_and isfinite negb];
    try done.
  destruct on; order_solve.
Qed.

Lemma score_cardio_map_antitone (a b : pyfloat) (x y : Z) :
  (a <=? b)%F = true ->
  score_cardio (Some a) None = Some x -> score_cardio (Some b) None = Some y ->
  (y <= x)%Z.
Proof.
  unfold score_cardio. destruct a as [p| | |], b as [q| | |]; order_solve.
Qed.

End ScoreOrder.

(** X5.  Whatever its arguments, each of the six sub-score functions
    returns either unknown or an integer between 0 and 4. *)
Theorem sub_scores_between_0_and_4 :
  (forall pf sf on z, Scoring.score_resp pf sf on = Some z -> 0 <= z <= 4)
  /\ (forall v z, Scoring.score_coag v = Some z -> 0 <= z <= 4)
  /\ (forall v z, Scoring.score_liver v = Some z -> 0 <= z <= 4)
  /\ (forall m p z, Scoring.score_cardio m p = Some z -> 0 <= z <= 4)
  /\ (forall v z, Scoring.score_cns v = Some z -> 0 <= z <= 4)
  /\ (forall v z, Scoring.score_renal v = Some z -> 0 <= z <= 4).
Proof.
  split; [exact score_resp_range|]. split; [exact score_coag_range|].
  split; [exact score_liver_range|]. split; [exact score_cardio_range|].
  split; [exact score_cns_range|]. exact score_renal_range.
Qed.

(** A platelet count of 30 scores 3, a dobutamine infusion scores 2. *)
Lemma sub_scores_between_0_and_4_witness :
  (Scoring.score_coag (Some (Fin 30)) = Some 3 /\ 0 <= 3 <= 4)
  /\ (Scoring.score_cardio None (Some {[ "dobutamine"%string := Fin 2.5 ]}) = Some 2
      /\ 0 <= 2 <= 4).
Proof.
  destruct sub_scores_between_0_and_4 as (_ & Hcoag & _ & Hcardio & _).
  split.
  - split; [reflexivity|]. apply (Hcoag (Some (Fin 30)) 3). reflexivity.
  - split; [vm_compute; reflexivity|].
    apply (Hcardio None (Some {[ "dobutamine"%string := Fin 2.5 ]}) 2).
    vm_compute. reflexivity.
Defined.

(** X6.  A worse measurement never gets a lower score.  Between two
    values that are both scored: more bilirubin or creatinine does not
    score lower; more platelets, a higher GCS, a higher PaO2/FiO2 ratio, a
    higher SpO2/FiO2 ratio (same support flag) and, without pressor
    information, a higher mean arterial pressure do not score higher. *)
Theorem sub_scores_follow_severity :
  (forall a b x y, (a <=? b)%F = true ->
     Scoring.score_liver (Some a) = Some x -> Scoring.score_liver (Some b) = Some y ->
     x <= y)
  /\ (forall a b x y, (a <=? b)%F = true ->
     Scoring.score_renal (Some a) = Some x -> Scoring.score_renal (Some b) = Some y ->
     x <= y)
  /\ (forall a b x y, (a <=? b)%F = true ->
     Scoring.score_coag (Some a) = Some x -> Scoring.score_coag (Some b) = Some y ->
     y <= x)
  /\ (forall a b x y, (a <=? b)%F = true ->
     Scoring.score_cns (Some a) = Some x -> Scoring.score_cns (Some b) = Some y ->
     y <= x)
  /\ (forall a b sf sf' on on' x y,
     isfinite a = true -> isfinite b = true -> (a <=? b)%F = true ->
     Scoring.score_resp (Some a) sf on = Some x ->
     Scoring.score_resp (Some b) sf' on' = Some y ->
     y <= x)
  /\ (forall a b on x y, (a <=? b)%F = true ->
     Scoring.score_resp None (Some a) on = Some x ->
     Scoring.score_resp None (Some b) on = Some y ->
     y <= x)
  /\ (forall a b x y, (a <=? b)%F = true ->
     Scoring.score_cardio (Some a) None = Some x ->
     Scoring.score_cardio (Some b) None = Some y ->
     y <= x).
Proof.
  split; [exact score_liver_monotone|]. split; [exact score_renal_monotone|].
  split; [exact score_coag_antitone|]. split; [exact score_cns_antitone|].
  split; [exact score_resp_pf_antitone|]. split; [exact score_resp_sf_antitone|].
  exact score_cardio_map_antitone.
Qed.

(** A bilirubin of 1.5 against 7, 90 against 160 platelets, a ratio of
    150 against 350. *)
Lemma sub_scores_follow_severity_witness :
  (Scoring.score_liver (Some (Fin 1.5)) = Some 1
   /\ Scoring.score_liver (Some (Fin 7)) = Some 3 /\ 1 <= 3)
  /\ (Scoring.score_coag (Some (Fin 90)) = Some 2
      /\ Scoring.score_coag (Some (Fin 160)) = Some 0 /\ 0 <= 2)
  /\ (Scoring.score_resp (Some (Fin 150)) None false = Some 3
      /\ Scoring.score_resp (Some (Fin 350)) None false = Some 1 /\ 1 <= 3).
Proof.
  destruct sub_scores_follow_severity as (Hliver & _ & Hcoag & _ & Hpf & _).
  split; [|split].
  - split; [reflexivity|]. split; [reflexivity|].
    apply (Hliver (Fin 1.5) (Fin 7)); reflexivity.
  - split; [reflexivity|]. split; [reflexivity|].
    apply (Hcoag (Fin 90) (Fin 160)); reflexivity.
  - split; [reflexivity|]. split; [reflexivity|].
    apply (Hpf (Fin 150) (Fin 350) None None false false); reflexivity.
Defined.

(* ===================================================================== *)
(** ** fhir_io.py: further properties *)
(* ===================================================================== *)

Section SortValues.
Import FhirIo.
Context {A : Type} (key : A -> Z).

Lemma insert_sorted_Permutation (r : A) (df : list A) :
  insert_sorted key r df ≡ₚ r :: df.
Proof.
  induction df as [|x df IH]; cbn [insert_sorted]; [done|].
  destruct (key r <=? key x)%Z; [done|].
  rewrite IH. apply Permutation_swap.
Qed.

Lemma sort_values_Permutation (df : list A) : sort_values key df ≡ₚ df.
Proof.
  unfold sort_values. induction df as [|x df IH]; cbn [foldr]; [done|].
  by rewrite insert_sorted_Permutation, IH.
Qed.

Lemma insert_sorted_sorted (r : A) (df : list A) :
  StronglySorted (fun a b => key a <= key b) df ->
  StronglySorted (fun a b => key a <= key b) (insert_sorted key r df).
Proof.
  induction 1 as [|x df Hs IH Hall]; cbn [insert_sorted].
  - repeat constructor.
  - destruct (Z.leb_spec (key r) (key x)).
    + constructor; [by constructor|].
      constructor; [done|]. eapply Forall_impl; [exact Hall|].
      cbn. intros. lia.
    + constructor; [done|].
      rewrite insert_sorted_Permutation. constructor; [lia | done].
Qed.

Lemma sort_values_sorted (df : list A) :
  StronglySorted (fun a b => key a <= key b) (sort_values key df).
Proof.
  unfold sort_values. induction df as [|x df IH]; cbn [foldr]; [constructor|].
  by apply insert_sorted_sorted.
Qed.

(** The sort is stable: rows with one and the same key keep their order. *)
Lemma insert_sorted_stable (k : Z) (r : A) (df : list A) :
  List.filter (fun a => key a =? k) (insert_sorted key r df)
  = List.filter (fun a => key a =? k) (r :: df).
Proof.
  induction df as [|x df IH]; cbn [insert_sorted]; [done|].
  destruct (Z.leb_spec (key r) (key x)); [done|].
  cbn [List.filter] in *. rewrite IH.
  destruct (Z.eqb_spec (key x) k), (Z.eqb_spec (key r) k); try done. lia.
Qed.

Lemma sort_values_stable (k : Z) (df : list A) :
  List.filter (fun a => key a =? k) (sort_values key df)
  = List.filter (fun a => key a =? k) df.
Proof.
  unfold sort_values. induction df as [|x df IH]; cbn [foldr]; [done|].
  rewrite insert_sorted_stable. cbn [List.filter]. by rewrite IH.
Qed.

End SortValues.

Section ObservationRows.
Import FhirIo PyStr.
Local Open Scope string_scope.
Variable strptime : string -> string -> result datetime.
Variable fromisoformat : string -> result datetime.
Variable merge_asof :
  list (Z * pyfloat) -> list (Z * pyfloat) -> Z -> list (Z * pyfloat * pyfloat).

Lemma resolve_metric_loinc (o : observation) (cc : codeable_concept)
    (c0 : coding) (rest : list coding) (c : string) (entry : string * string) :
  code o = Some cc -> cc_coding cc = c0 :: rest -> coding_code c0 = Some c ->
  LOINC_MAP !! c = Some entry ->
  resolve_metric o = Some (fst entry).
Proof.
  intros Hcode Hcod Hc Hl. unfold resolve_metric. rewrite Hcode, Hcod, Hc.
  destruct c as [|a c]; [by vm_compute in Hl|].
  change (truthy (Some (String a c))) with true.
  change (default "" (Some (String a c))) with (String a c).
  by rewrite Hl.
Qed.





Lemma collect_rows_patient (observations : list observation) (subject : string) :
  forall rows, collect_rows strptime fromisoformat observations subject = Ok rows ->
    Forall (fun r => patient_id r = subject) rows
    /\ (length rows <= length observations)%nat.
Proof.
  induction observations as [|o rest IH]; intros rows; cbn [collect_rows].
  - intros [= <-]. split; [constructor | done].
  - destruct (_obs_entry_to_row strptime fromisoformat o) as [r|]; [|done].
    cbn [mbind result_bind].
    destruct (collect_rows strptime fromisoformat rest subject) as [rows'|];
      [|done]. cbn [mbind result_bind].
    destruct (IH rows' eq_refl) as [Hp Hlen]. intros [= <-].
    destruct r; cbn [length]; split; try lia; [by constructor | done].
Qed.

End ObservationRows.

(** X7.  A LOINC code of the table on the first coding decides the
    metric: the display text of the coding, the text of the concept and
    the codings after the first are not consulted. *)
Theorem loinc_code_decides_the_metric :
  forall (o : FhirIo.observation) (cc : FhirIo.codeable_concept)
         (c0 : FhirIo.coding) (rest : list FhirIo.coding) (c : string)
         (entry : string * string),
    FhirIo.code o = Some cc -> FhirIo.cc_coding cc = c0 :: rest ->
    FhirIo.coding_code c0 = Some c -> FhirIo.LOINC_MAP !! c = Some entry ->
    FhirIo.resolve_metric o = Some (fst entry).
Proof. exact resolve_metric_loinc. Qed.

(** A systolic reading mislabelled with the LOINC code of the platelet
    count is a platelet count. *)
Lemma loinc_code_decides_the_metric_witness :
  FhirIo.resolve_metric
    (blood_pressure_reading "777-3" "Systolic blood pressure" 120 "2024-01-01T10:00:00Z")
  = Some "Platelets"%string.
Proof.
  eapply (loinc_code_decides_the_metric _ _ _ [] "777-3"
            ("Platelets", "10^3/uL")%string); reflexivity.
Defined.





(** X10.  A frame that [observations_to_df] returns holds the collected
    rows in non-decreasing order of time, rows of one and the same time in
    their order of collection; every row carries the subject as patient
    and one of the eight metric names, and there are at most as many rows
    as observations. *)
Theorem observations_to_df_sorted_by_time :
  forall (strptime : string -> string -> result datetime)
         (fromisoformat : string -> result datetime)
         (merge_asof : list (Z * pyfloat) -> list (Z * pyfloat) -> Z ->
                       list (Z * pyfloat * pyfloat))
         (observations : list FhirIo.observation) (subject : string)
         (df : list FhirIo.obs_row),
    FhirIo.observations_to_df strptime fromisoformat merge_asof observations subject
      = Ok df ->
    StronglySorted (fun a b => FhirIo.effective a <= FhirIo.effective b) df
    /\ Forall (fun r => FhirIo.patient_id r = subject
                        /\ In (FhirIo.metric r) Main.METRICS) df
    /\ (length df <= length observations)%nat
    /\ exists rows,
         FhirIo.collect_rows strptime fromisoformat observations subject = Ok rows
         /\ df ≡ₚ rows
         /\ forall t, List.filter (fun r => FhirIo.effective r =? t) df
                      = List.filter (fun r => FhirIo.effective r =? t) rows.
Proof.
  intros strptime fromisoformat merge_asof observations subject df.
  rewrite observations_to_df_sorted_rows.
  destruct (FhirIo.collect_rows strptime fromisoformat observations subject)
    as [rows|e] eqn:Hrows; cbn [mbind result_bind]; [|done].
  intros [= <-].
  destruct (collect_rows_patient _ _ _ _ _ Hrows) as [Hp Hlen].
  pose proof (collect_rows_metric_known _ _ _ _ _ Hrows) as Hm.
  split; [apply sort_values_sorted|].
  split.
  { rewrite sort_values_Permutation. apply Forall_forall. intros r Hr.
    rewrite Forall_forall in Hp, Hm. split; [by apply Hp | by apply Hm]. }
  split; [by rewrite sort_values_Permutation|].
  exists rows. split; [done|]. split; [apply sort_values_Permutation|].
  intros t. apply sort_values_stable.
Qed.

(** The platelet count of 10:00, second in the input, is first in the
    frame. *)
Lemma observations_to_df_sorted_by_time_witness :
  exists df,
    FhirIo.observations_to_df PyDatetime.strptime PyDatetime.fromisoformat
      no_join platelets_late_first "a" = Ok df
    /\ map FhirIo.value df = [Fin 90; Fin 120]
    /\ StronglySorted (fun a b => FhirIo.effective a <= FhirIo.effective b) df.
Proof.
  eexists. split; [vm_compute; reflexivity|]. split; [reflexivity|].
  eapply proj1,
    (observations_to_df_sorted_by_time PyDatetime.strptime PyDatetime.fromisoformat
       no_join platelets_late_first "a").
  vm_compute. reflexivity.
Defined.

Section MedicationRows.
Import FhirIo PyStr.
Local Open Scope string_scope.
Variable strptime : string -> string -> result datetime.
Variable fromisoformat : string -> result datetime.

Lemma pressor_keyword_known (text k : string) :
  keyword_metric PRESSOR_KEYWORDS text = Some k ->
  In k ["norepinephrine"; "epinephrine"; "dopamine"; "dobutamine"].
Proof.
  unfold PRESSOR_KEYWORDS. cbn [keyword_metric].
  repeat match goal with
         | |- context [if existsb ?f ?l then _ else _] => destruct (existsb f l)
         end; intros [= <-]; cbn; tauto.
Qed.

Lemma pressor_keyword_norepinephrine (text : string) :
  contains "norepinephrine" text = true \/ contains "levophed" text = true ->
  keyword_metric PRESSOR_KEYWORDS text = Some "norepinephrine".
Proof.
  unfold PRESSOR_KEYWORDS. cbn [keyword_metric existsb].
  intros [-> | ->]; [done|]. by rewrite orb_true_r.
Qed.

Lemma pressor_keyword_epinephrine (text : string) :
  keyword_metric PRESSOR_KEYWORDS text = Some "epinephrine" ->
  contains "norepinephrine" text = false /\ contains "levophed" text = false
  /\ (contains "epinephrine" text = true \/ contains "adrenaline" text = true).
Proof.
  unfold PRESSOR_KEYWORDS. cbn [keyword_metric existsb].
  destruct (contains "norepinephrine" text), (contains "levophed" text);
    cbn [orb]; try done.
  destruct (contains "epinephrine" text), (contains "adrenaline" text);
    cbn [orb]; try done; try tauto.
  repeat match goal with
         | |- context [if ?b then _ else _] => destruct b
         end; done.
Qed.

Lemma med_to_pressor_which (m : medication) (e : pressor_entry) :
  med_to_pressor strptime fromisoformat m = Ok (Some e) ->
  keyword_metric PRESSOR_KEYWORDS (pressor_text m) = Some (pe_pressor e).
Proof.
  unfold med_to_pressor.
  destruct (keyword_metric PRESSOR_KEYWORDS (pressor_text m)) as [k|] eqn:Hk;
    [|by cbn].
  destruct (negb (truthy (Some k))); [done|].
  destruct (match dosage m with Some _ => _ | None => _ end) as [r u].
  destruct (negb (truthy _)); [done|].
  destruct (Utils.parse_time _ _ _); [|done].
  by intros [= <-].
Qed.



End MedicationRows.

(** X11.  A medication that [med_to_pressor] keeps is classified as one
    of the four pressors by the lower-cased display (or else code) of its
    first coding.  The table is read in order: a text that mentions
    norepinephrine or levophed is norepinephrine, and a medication is
    epinephrine only when its text mentions epinephrine or adrenaline and
    neither of those two words. *)
Theorem med_to_pressor_classifies_in_table_order :
  forall (strptime : string -> string -> result datetime)
         (fromisoformat : string -> result datetime)
         (m : FhirIo.medication) (e : FhirIo.pressor_entry),
    FhirIo.med_to_pressor strptime fromisoformat m = Ok (Some e) ->
    In (FhirIo.pe_pressor e)
       ["norepinephrine"; "epinephrine"; "dopamine"; "dobutamine"]%string
    /\ (PyStr.contains "norepinephrine" (FhirIo.pressor_text m) = true
        \/ PyStr.contains "levophed" (FhirIo.pressor_text m) = true ->
        FhirIo.pe_pressor e = "norepinephrine"%string)
    /\ (FhirIo.pe_pressor e = "epinephrine"%string ->
        PyStr.contains "norepinephrine" (FhirIo.pressor_text m) = false
        /\ PyStr.contains "levophed" (FhirIo.pressor_text m) = false
        /\ (PyStr.contains "epinephrine" (FhirIo.pressor_text m) = true
            \/ PyStr.contains "adrenaline" (FhirIo.pressor_text m) = true)).
Proof.
  intros strptime fromisoformat m e Hm.
  apply med_to_pressor_which in Hm.
  split; [by eapply pressor_keyword_known|]. split.
  - intros Hne%pressor_keyword_norepinephrine. congruence.
  - intros Hepi. rewrite Hepi in Hm. by apply pressor_keyword_epinephrine.
Qed.

(** The display Norepinephrine (noradrenaline) mentions epinephrine too:
    it is norepinephrine. *)
Lemma med_to_pressor_classifies_in_table_order_witness :
  exists e,
    FhirIo.med_to_pressor PyDatetime.strptime PyDatetime.fromisoformat noradrenaline
      = Ok (Some e)
    /\ PyStr.contains "epinephrine" (FhirIo.pressor_text noradrenaline) = true
    /\ FhirIo.pe_pressor e = "norepinephrine"%string.
Proof.
  eexists. split; [vm_compute; reflexivity|]. split; [reflexivity|].
  eapply (proj1 (proj2 (med_to_pressor_classifies_in_table_order
                          PyDatetime.strptime PyDatetime.fromisoformat
                          noradrenaline _ _))).
  left. reflexivity.
  Unshelve. vm_compute. reflexivity.
Defined.



(* ===================================================================== *)
(** ** main.py: further properties *)
(* ===================================================================== *)

Section PressorTimes.
Import PyStr Utils Scoring FhirIo Main Rules Notions.
Local Open Scope string_scope.
Local Open Scope list_scope.
Implicit Types (pt : gmap Z (gmap string pyfloat)) (r : med_row) (t : Z).

Lemma pressor_step_lookup pt r t :
  pressor_step pt r !! t = slot_step t (pt !! t) r.
Proof.
  unfold pressor_step, slot_step, dose_valid.
  destruct (known_and notna (med_rate r) && _) eqn:Hv; cbn [andb]; [|done].
  destruct (med_rate r) as [val|]; [|by destruct (_ =? _)%Z].
  destruct (Z.eqb_spec (med_effective r) t) as [->|Hne].
  - by rewrite lookup_insert_eq.
  - by rewrite lookup_insert_ne.
Qed.

Lemma foldl_pressor_step_lookup (meds_df : list med_row) t : forall pt,
  foldl pressor_step pt meds_df !! t = foldl (slot_step t) (pt !! t) meds_df.
Proof.
  induction meds_df as [|r meds_df IH]; intros pt; cbn [foldl]; [done|].
  by rewrite IH, pressor_step_lookup.
Qed.

Lemma build_pressor_times_lookup (meds_df : list med_row) t :
  build_pressor_times meds_df !! t = foldl (slot_step t) None meds_df.
Proof.
  unfold build_pressor_times. destruct meds_df as [|r meds_df]; [done|].
  by rewrite foldl_pressor_step_lookup, lookup_empty.
Qed.

(** Rows of other instants do nothing to the dict of [t]. *)
Lemma foldl_slot_step_filter (meds_df : list med_row) t : forall slot,
  foldl (slot_step t) slot (List.filter (fun r => med_effective r =? t)%Z meds_df)
  = foldl (slot_step t) slot meds_df.
Proof.
  induction meds_df as [|r meds_df IH]; intros slot; cbn [List.filter foldl];
    [done|].
  destruct (Z.eqb_spec (med_effective r) t) as [Heq|Hne]; cbn [foldl].
  - apply IH.
  - rewrite IH. f_equal. unfold slot_step.
    destruct (Z.eqb_spec (med_effective r) t); [done|]. by rewrite andb_false_r.
Qed.

Lemma dict_truthy_insert (d : gmap string pyfloat) (k : string) (v : pyfloat) :
  dict_truthy (<[k := v]> d) = true.
Proof.
  unfold dict_truthy. apply negb_true_iff, Nat.eqb_neq.
  rewrite map_size_empty_iff. apply insert_non_empty.
Qed.

Lemma dose_valid_rate r :
  dose_valid r = true -> exists v, med_rate r = Some v /\ notna v = true.
Proof.
  unfold dose_valid. intros [Hr _]%andb_true_iff.
  destruct (med_rate r) as [v|]; [|done]. by exists v.
Qed.

Lemma slot_step_ok (seen : list med_row) t slot r :
  slot_ok seen t slot -> slot_ok (seen ++ [r]) t (slot_step t slot r).
Proof.
  intros Hok.
  assert (Hweak : slot_ok (seen ++ [r]) t slot).
  { destruct slot as [d|]; [|done]. destruct Hok as [Hd Hk]. split; [done|].
    intros k v Hkv. destruct (Hk k v Hkv) as (Hv & r' & Hin & ?).
    split; [done|]. exists r'. split; [apply in_or_app; by left | done]. }
  unfold slot_step.
  destruct (dose_valid r) eqn:Hvalid; cbn [andb]; [|done].
  destruct (Z.eqb_spec (med_effective r) t) as [Ht|]; [|done].
  destruct (dose_valid_rate r Hvalid) as (val & Hrate & Hval). rewrite Hrate.
  split; [apply dict_truthy_insert|].
  intros k v. destruct (decide (med_pressor r = k)) as [<-|Hne].
  - rewrite lookup_insert_eq. intros [= <-]. split; [done|].
    exists r. split; [apply in_or_app; right; by left | done].
  - rewrite lookup_insert_ne by done. intros Hkv.
    destruct slot as [d|].
    + destruct Hweak as [_ Hk]. by apply Hk.
    + change ((∅ : gmap string pyfloat) !! k = Some v) in Hkv.
      by rewrite lookup_empty in Hkv.
Qed.

Lemma foldl_slot_step_ok (meds_df : list med_row) t : forall seen slot,
  slot_ok seen t slot ->
  slot_ok (seen ++ meds_df) t (foldl (slot_step t) slot meds_df).
Proof.
  induction meds_df as [|r meds_df IH]; intros seen slot Hok; cbn [foldl].
  - by rewrite app_nil_r.
  - replace (seen ++ r :: meds_df) with ((seen ++ [r]) ++ meds_df)
      by (by rewrite <- app_assoc).
    apply IH. by apply slot_step_ok.
Qed.

Lemma build_pressor_times_ok (meds_df : list med_row) t :
  slot_ok meds_df t (build_pressor_times meds_df !! t).
Proof.
  rewrite build_pressor_times_lookup.
  apply (foldl_slot_step_ok meds_df t [] None). done.
Qed.

Lemma slot_step_rate t slot r (k : string) :
  rate_of (slot_step t slot r) k
  = if dose_valid r && (med_effective r =? t)%Z && String.eqb (med_pressor r) k
    then med_rate r else rate_of slot k.
Proof.
  unfold slot_step.
  destruct (dose_valid r) eqn:Hvalid; cbn [andb]; [|done].
  destruct (med_effective r =? t)%Z; cbn [andb]; [|done].
  destruct (dose_valid_rate r Hvalid) as (val & Hrate & _). rewrite Hrate.
  unfold rate_of. cbn [mbind option_bind].
  destruct (String.eqb_spec (med_pressor r) k) as [->|Hne].
  - by rewrite lookup_insert_eq.
  - rewrite lookup_insert_ne by done.
    destruct slot as [d|]; [done|]. apply lookup_empty.
Qed.

Lemma build_pressor_times_rate (meds_df : list med_row) t (k : string) :
  rate_of (build_pressor_times meds_df !! t) k = last_dose meds_df t k.
Proof.
  rewrite build_pressor_times_lookup. unfold last_dose.
  assert (H : forall slot acc, rate_of slot k = acc ->
            rate_of (foldl (slot_step t) slot meds_df) k
            = foldl (fun acc r =>
                       if dose_valid r && (med_effective r =? t)%Z
                          && String.eqb (med_pressor r) k
                       then med_rate r else acc) acc meds_df).
  { induction meds_df as [|r meds_df IH]; intros slot acc Hacc; cbn [foldl];
      [done|].
    apply IH. by rewrite slot_step_rate, Hacc. }
  by apply H.
Qed.

Lemma build_pressor_times_instant (meds_df : list med_row) t :
  build_pressor_times meds_df !! t
  = build_pressor_times (List.filter (fun r => med_effective r =? t)%Z meds_df) !! t.
Proof. by rewrite !build_pressor_times_lookup, foldl_slot_step_filter. Qed.

End PressorTimes.

(** X13.  The dict of rates kept for an instant [t] is built from the
    medication rows of that very instant alone: the rows of every other
    instant can be removed from the frame without changing it. *)
Theorem pressor_times_at_an_instant :
  forall (meds_df : list FhirIo.med_row) (t : Z),
    Main.build_pressor_times meds_df !! t
    = Main.build_pressor_times
        (List.filter (fun r => FhirIo.med_effective r =? t) meds_df) !! t.
Proof. exact build_pressor_times_instant. Qed.

(** X14.  For every instant and drug, the rate that the dict of rates
    holds is the rate of the last row of the frame that is valid (a rate
    that is not NaN, a unit that mentions ug/kg/min or mcg/kg/min) for
    that instant and drug, and there is none when no such row exists.  A
    dict kept for an instant is never empty and holds no NaN. *)
Theorem pressor_times_hold_the_last_valid_rate :
  forall (meds_df : list FhirIo.med_row) (t : Z),
    (forall k, Rules.rate_of (Main.build_pressor_times meds_df !! t) k
               = Notions.last_dose meds_df t k)
    /\ Notions.slot_ok meds_df t (Main.build_pressor_times meds_df !! t).
Proof.
  intros meds_df t. split.
  - intros k. apply build_pressor_times_rate.
  - apply build_pressor_times_ok.
Qed.

Section ResultRows.
Import PyStr Utils Scoring FhirIo Main Rules Notions.
Local Open Scope string_scope.
Local Open Scope list_scope.
Local Open Scope Z_scope.

Variable subject : string.
Variable metrics : gmap string (list (Z * pyfloat)).
Variable pressor_times : gmap Z (gmap string pyfloat).

(** One iteration adds no row, or the one row of its instant with a
    score between 0 and 24, and then no system is missing. *)
Lemma step_rows_cases (t : Z) :
  step_rows subject metrics pressor_times t = []
  \/ exists z, step_rows subject metrics pressor_times t
               = [{| patient_id := subject; sofa_score_datetime := t;
                     sofa_score := z |}]
       /\ 0 <= z <= 24
       /\ missing_systems (components (read_at metrics pressor_times t)) = [].
Proof.
  destruct (missing_systems (components (read_at metrics pressor_times t)))
    as [|k ks] eqn:Hmiss.
  - right. rewrite (step_rows_known subject metrics pressor_times t Hmiss).
    destruct (components_known _ Hmiss)
      as (resp & coag & liver & cardio & cns & renal & Hc & ? & ? & ? & ? & ? & ?).
    eexists. split; [done|]. split; [|done].
    rewrite Hc. cbn [omap list_omap snd foldl]. lia.
  - left. apply step_rows_unknown. by rewrite Hmiss.
Qed.

Lemma flat_map_step_rows_In (times : list Z) (r : scored_row) :
  In r (flat_map (step_rows subject metrics pressor_times) times) ->
  In (sofa_score_datetime r) times
  /\ r = {| patient_id := subject; sofa_score_datetime := sofa_score_datetime r;
            sofa_score := sofa_score r |}
  /\ 0 <= sofa_score r <= 24
  /\ missing_systems
       (components (read_at metrics pressor_times (sofa_score_datetime r))) = [].
Proof.
  intros (t & Ht & Hr)%in_flat_map.
  destruct (step_rows_cases t) as [Hnil|(z & Hrow & Hz & Hmiss)].
  - rewrite Hnil in Hr. destruct Hr.
  - rewrite Hrow in Hr. destruct Hr as [<-|[]]. cbn. done.
Qed.

Lemma flat_map_step_rows_sorted (times : list Z) :
  StronglySorted Z.lt times ->
  StronglySorted (fun a b => sofa_score_datetime a < sofa_score_datetime b)
    (flat_map (step_rows subject metrics pressor_times) times)
  /\ (length (flat_map (step_rows subject metrics pressor_times) times)
      <= length times)%nat.
Proof.
  induction 1 as [|t times Hs IH Hall]; cbn [flat_map].
  - split; [constructor | done].
  - destruct IH as [IHs IHl].
    destruct (step_rows_cases t) as [-> | (z & -> & _)]; cbn [app length].
    + split; [done | lia].
    + split; [|lia]. constructor; [done|].
      apply List.Forall_forall. intros r Hr.
      apply flat_map_step_rows_In in Hr as (Hin & _). cbn.
      rewrite List.Forall_forall in Hall. by apply Hall.
Qed.

End ResultRows.

Section ResultFacts.
Import PyStr Utils Scoring FhirIo Main Rules Notions.
Local Open Scope string_scope.
Local Open Scope list_scope.
Local Open Scope Z_scope.

Lemma candidate_times_length (obs_df : list obs_row) :
  (length (candidate_times obs_df) <= length obs_df)%nat.
Proof.
  rewrite <- (length_map effective obs_df).
  apply NoDup_incl_length.
  - apply NoDup_ListNoDup, candidate_times_NoDup.
  - intros t. apply round_times_members.
Qed.

Lemma latest_within_observed (obs_df : list obs_row) (m : string) (t : Z)
    (v : pyfloat) :
  In m METRICS ->
  latest_within (get_series (build_metrics obs_df) m) t WINDOW_HOURS = Some v ->
  observed obs_df m t.
Proof.
  intros Hm Hlk.
  pose proof (latest_within_inv (get_series (build_metrics obs_df) m)
                t WINDOW_HOURS) as H.
  rewrite Hlk in H. destruct H as (rt & Hin & Hw & _).
  apply in_series in Hin as (o & Hin & Hmet & <- & _); [|done].
  by exists o.
Qed.

Lemma foldl_slot_step_some (meds_df : list med_row) (t : Z) : forall slot d,
  foldl (slot_step t) slot meds_df = Some d ->
  is_Some slot
  \/ exists r, In r meds_df /\ dose_valid r = true /\ med_effective r = t.
Proof.
  induction meds_df as [|r meds_df IH]; intros slot d; cbn [foldl].
  - intros ->. by left.
  - intros [Hs|(r' & Hin & ?)]%IH.
    + unfold slot_step in Hs.
      destruct (dose_valid r) eqn:Hv; cbn [andb] in Hs; [|by left].
      destruct (Z.eqb_spec (med_effective r) t); [|by left].
      right. exists r. split; [by left | done].
    + right. exists r'. split; [by right | done].
Qed.

Lemma ratio_some (x fio2 : option pyfloat) :
  ratio x fio2 <> None -> x <> None.
Proof. by destruct x. Qed.

Lemma score_resp_needs_a_ratio (pf sf : option pyfloat) (on : bool) (z : Z) :
  score_resp pf sf on = Some z -> pf <> None \/ sf <> None.
Proof. destruct pf, sf; try (by left); by right. Qed.

Lemma score_cardio_needs_an_input (m : option pyfloat)
    (p : option (gmap string pyfloat)) (z : Z) :
  score_cardio m p = Some z -> m <> None \/ p <> None.
Proof. destruct m, p; try (by left); by right. Qed.

(** What the six known sub-scores of an instant say about the frames. *)
Lemma known_scores_observed (obs_df : list obs_row) (meds_df : list med_row)
    (t : Z) :
  missing_systems
    (components (read_at (build_metrics obs_df) (build_pressor_times meds_df) t))
  = [] ->
  observed obs_df "Platelets" t /\ observed obs_df "Bilirubin" t
  /\ observed obs_df "Creatinine" t
  /\ (observed obs_df "PaO2" t \/ observed obs_df "SpO2" t)
  /\ (observed obs_df "MAP" t
      \/ exists m, In m meds_df /\ dose_valid m = true /\ med_effective m = t).
Proof.
  intros Hmiss. apply components_known in Hmiss
    as (resp & coag & liver & cardio & cns & renal & Hc & _).
  unfold components in Hc.
  injection Hc as Hresp Hcoag Hliver Hcardio Hcns Hrenal.
  unfold read_at in *. cbn [pf sf plate bili creat map_v pressor] in *.
  assert (Hobs : forall m (f : option pyfloat -> option Z) z,
            In m METRICS -> f None = None ->
            f (latest_within (get_series (build_metrics obs_df) m) t WINDOW_HOURS)
            = Some z -> observed obs_df m t).
  { intros m f z Hm Hf Hz.
    destruct (latest_within (get_series (build_metrics obs_df) m) t WINDOW_HOURS)
      as [v|] eqn:Hlk; [|congruence].
    by eapply latest_within_observed. }
  split; [apply (Hobs _ score_coag coag); [cbn; tauto | done | done]|].
  split; [apply (Hobs _ score_liver liver); [cbn; tauto | done | done]|].
  split; [apply (Hobs _ score_renal renal); [cbn; tauto | done | done]|].
  split.
  - apply score_resp_needs_a_ratio in Hresp as [Hpf|Hsf].
    + left. apply ratio_some in Hpf.
      destruct (latest_within (get_series (build_metrics obs_df) "PaO2") t
                  WINDOW_HOURS) as [v|] eqn:Hlk; [|done].
      eapply latest_within_observed; [|exact Hlk]. cbn; tauto.
    + right. apply ratio_some in Hsf.
      destruct (latest_within (get_series (build_metrics obs_df) "SpO2") t
                  WINDOW_HOURS) as [v|] eqn:Hlk; [|done].
      eapply latest_within_observed; [|exact Hlk]. cbn; tauto.
  - apply score_cardio_needs_an_input in Hcardio as [Hmap|Hp].
    + left.
      destruct (latest_within (get_series (build_metrics obs_df) "MAP") t
                  WINDOW_HOURS) as [v|] eqn:Hlk; [|done].
      eapply latest_within_observed; [|exact Hlk]. cbn; tauto.
    + right. rewrite build_pressor_times_lookup in Hp.
      destruct (foldl (slot_step t) None meds_df) as [d|] eqn:Hd; [|done].
      apply foldl_slot_step_some in Hd as [[? [=]]|Hr]. done.
Qed.

End ResultFacts.

(** X15.  The rows of a result are in strictly increasing order of time,
    so no instant has two rows; every row carries the subject, a score
    between 0 and 24 and the time of an observation of the frame; and
    there are at most as many rows as observations. *)
Theorem result_rows_in_time_order :
  forall (subject : string) (obs_df : list FhirIo.obs_row)
         (meds_df : list FhirIo.med_row),
    let rows := fst (Main.compute_patient_sofa subject obs_df meds_df) in
    StronglySorted
      (fun a b => Main.sofa_score_datetime a < Main.sofa_score_datetime b) rows
    /\ Forall (fun r => Main.patient_id r = subject
                        /\ 0 <= Main.sofa_score r <= 24
                        /\ In (Main.sofa_score_datetime r)
                              (map FhirIo.effective obs_df)) rows
    /\ (length rows <= length obs_df)%nat.
Proof.
  intros subject obs_df meds_df rows. subst rows.
  rewrite compute_patient_sofa_rows.
  destruct (flat_map_step_rows_sorted subject (Main.build_metrics obs_df)
              (Main.build_pressor_times meds_df) (Rules.candidate_times obs_df))
    as [Hs Hl]; [apply round_times_sorted|].
  split; [done|]. split.
  - apply List.Forall_forall. intros r Hr.
    apply flat_map_step_rows_In in Hr as (Hin & Heq & Hz & _).
    split; [by rewrite Heq|]. split; [done|].
    exact (proj1 (round_times_members _ _) Hin).
  - pose proof (candidate_times_length obs_df). lia.
Qed.

(** X16.  A row is produced for an instant only when the frames hold, in
    the look-back window of that instant, a platelet count, a bilirubin
    and a creatinine, a PaO2 or an SpO2, and either a mean arterial
    pressure or else a valid pressor dose recorded at that very instant.
    In particular a patient with no MAP observation and no valid pressor
    dose gets no row at all. *)
Theorem a_row_needs_every_system :
  forall (subject : string) (obs_df : list FhirIo.obs_row)
         (meds_df : list FhirIo.med_row),
    (forall r, In r (fst (Main.compute_patient_sofa subject obs_df meds_df)) ->
       let t := Main.sofa_score_datetime r in
       Notions.observed obs_df "Platelets" t
       /\ Notions.observed obs_df "Bilirubin" t
       /\ Notions.observed obs_df "Creatinine" t
       /\ (Notions.observed obs_df "PaO2" t \/ Notions.observed obs_df "SpO2" t)
       /\ (Notions.observed obs_df "MAP" t
           \/ exists m, In m meds_df /\ Notions.dose_valid m = true
                        /\ FhirIo.med_effective m = t))
    /\ ((forall o, In o obs_df -> FhirIo.metric o <> "MAP"%string) ->
        (forall m, In m meds_df -> Notions.dose_valid m = false) ->
        fst (Main.compute_patient_sofa subject obs_df meds_df) = []).
Proof.
  intros subject obs_df meds_df.
  assert (Hrow : forall r,
            In r (fst (Main.compute_patient_sofa subject obs_df meds_df)) ->
            Notions.observed obs_df "Platelets" (Main.sofa_score_datetime r)
            /\ Notions.observed obs_df "Bilirubin" (Main.sofa_score_datetime r)
            /\ Notions.observed obs_df "Creatinine" (Main.sofa_score_datetime r)
            /\ (Notions.observed obs_df "PaO2" (Main.sofa_score_datetime r)
                \/ Notions.observed obs_df "SpO2" (Main.sofa_score_datetime r))
            /\ (Notions.observed obs_df "MAP" (Main.sofa_score_datetime r)
                \/ exists m, In m meds_df /\ Notions.dose_valid m = true
                     /\ FhirIo.med_effective m = Main.sofa_score_datetime r)).
  { intros r. rewrite compute_patient_sofa_rows.
    intros (_ & _ & _ & Hmiss)%flat_map_step_rows_In.
    by apply known_scores_observed. }
  split; [exact Hrow|].
  intros Hmap Hmeds.
  destruct (fst (Main.compute_patient_sofa subject obs_df meds_df))
    as [|r rows] eqn:Hrows; [done|].
  destruct (Hrow r (or_introl eq_refl)) as (_ & _ & _ & _ & [Hm|Hd]).
  - destruct Hm as (o & Hin & Hmet & _). by destruct (Hmap o Hin).
  - destruct Hd as (m & Hin & Hv & _). rewrite (Hmeds m Hin) in Hv. done.
Qed.

(** The chart has a row at the instant 0, with a platelet count in its
    window; without its mean arterial pressure, and with no medication,
    it has no row. *)
Lemma a_row_needs_every_system_witness :
  Notions.observed chart "Platelets" 0
  /\ fst (Main.compute_patient_sofa "a" chart_without_map []) = [].
Proof.
  split.
  - apply (proj1 (a_row_needs_every_system "a" chart [])
             {| Main.patient_id := "a"; Main.sofa_score_datetime := 0;
                Main.sofa_score := 2 |}).
    vm_compute. left. reflexivity.
  - apply (proj2 (a_row_needs_every_system "a" chart_without_map [])).
    + intros o Hin. vm_compute in Hin.
      repeat destruct Hin as [<-|Hin]; try discriminate. destruct Hin.
    + intros m [].
Defined.

Section ResultInputs.
Import PyStr Utils Scoring FhirIo Main Rules Notions.
Local Open Scope string_scope.
Local Open Scope list_scope.
Local Open Scope Z_scope.

(** An instant with a missing system has no row, candidate or not. *)
Lemma rows_at_unknown (subject : string) (obs_df : list obs_row)
    (meds_df : list med_row) (t : Z) :
  missing_systems
    (components (read_at (build_metrics obs_df) (build_pressor_times meds_df) t))
  <> [] ->
  rows_at t (fst (compute_patient_sofa subject obs_df meds_df)) = [].
Proof.
  intros Hmiss. rewrite compute_patient_sofa_rows.
  destruct (in_dec Z.eq_dec t (candidate_times obs_df)) as [Hin|Hout].
  - rewrite rows_at_flat_map; [|apply candidate_times_NoDup | done].
    by rewrite step_rows_unknown.
  - by apply rows_at_absent.
Qed.

Lemma ratio_zero (x : option pyfloat) (q : Q) :
  (q == 0)%Q -> ratio x (Some (Fin q / 100%Q)%F) = None.
Proof.
  intros Hq. destruct x as [a|]; [|done].
  rewrite fdiv_100. unfold ratio, ftruthy.
  destruct (Qeq_bool_reflect (q * (1 # 100)) 0) as [_|Hne]; [done|].
  destruct Hne. lra.
Qed.

(** The loop body reads the dict of rates at its own instant only. *)
Lemma step_rows_pressor (subject : string)
    (metrics : gmap string (list (Z * pyfloat)))
    (pt pt' : gmap Z (gmap string pyfloat)) (t : Z) :
  pt !! t = pt' !! t ->
  step_rows subject metrics pt t = step_rows subject metrics pt' t.
Proof.
  intros Heq. unfold step_rows, sofa_step, read_at. by rewrite Heq.
Qed.

Lemma filter_instant_at_observation_times (obs_df : list obs_row)
    (meds_df : list med_row) (t : Z) :
  In t (map effective obs_df) ->
  List.filter (fun r => med_effective r =? t) (at_observation_times obs_df meds_df)
  = List.filter (fun r => med_effective r =? t) meds_df.
Proof.
  intros Ht. unfold at_observation_times.
  induction meds_df as [|r meds_df IH]; cbn [List.filter]; [done|].
  destruct (existsb _ _) eqn:Hex; cbn [List.filter].
  - by rewrite IH.
  - rewrite IH. destruct (Z.eqb_spec (med_effective r) t) as [Hrt|]; [|done].
    assert (Hex' : existsb (Z.eqb (med_effective r)) (map effective obs_df) = true).
    { apply existsb_exists. exists t. split; [done|]. by apply Z.eqb_eq. }
    congruence.
Qed.

Lemma flat_map_ext_In {A B} (f g : A -> list B) (l : list A) :
  (forall a, In a l -> f a = g a) -> flat_map f l = flat_map g l.
Proof.
  induction l as [|a l IH]; intros Hfg; cbn [flat_map]; [done|].
  rewrite (Hfg a), IH; [done| |by left].
  intros a' Ha'. apply Hfg. by right.
Qed.

End ResultInputs.

(** X17.  When the FiO2 in effect at an instant is zero, the two ratios
    are not computed (there is no division by zero): both are unknown, so
    is the respiratory sub-score, and the instant has no row. *)
Theorem zero_fio2_gives_no_row :
  forall (subject : string) (obs_df : list FhirIo.obs_row)
         (meds_df : list FhirIo.med_row) (t : Z) (q : Q),
    Utils.latest_within (Main.get_series (Main.build_metrics obs_df) "FiO2")
      t Main.WINDOW_HOURS = Some (Fin q) ->
    (q == 0)%Q ->
    let rd := Main.read_at (Main.build_metrics obs_df)
                           (Main.build_pressor_times meds_df) t in
    Main.pf rd = None /\ Main.sf rd = None
    /\ In ("Resp"%string, None) (Main.components rd)
    /\ Rules.rows_at t (fst (Main.compute_patient_sofa subject obs_df meds_df)) = [].
Proof.
  intros subject obs_df meds_df t q Hlk Hq rd.
  destruct (read_at_fio2 obs_df meds_df t (Fin q) Hlk) as (_ & _ & Hpf & Hsf).
  fold rd in Hpf, Hsf. rewrite ratio_zero in Hpf, Hsf by done.
  assert (Hresp : In ("Resp"%string, None) (Main.components rd)).
  { unfold Main.components. rewrite Hpf, Hsf. by left. }
  split; [done|]. split; [done|]. split; [done|].
  apply rows_at_unknown. fold rd.
  unfold Main.components, Rules.missing_systems. rewrite Hpf, Hsf. done.
Qed.

(** The chart with an FiO2 of zero has no row at the instant 0. *)
Lemma zero_fio2_gives_no_row_witness :
  Rules.rows_at 0 (fst (Main.compute_patient_sofa "a" chart_fio2_zero [])) = [].
Proof.
  destruct (zero_fio2_gives_no_row "a" chart_fio2_zero [] 0 0) as (_ & _ & _ & H);
    [vm_compute; reflexivity | reflexivity | exact H].
Defined.

(** X18.  Pressor doses are matched to an instant by equal time only: the
    rows of a result are the same when every medication row whose time is
    not the time of an observation is removed from the frame. *)
Theorem doses_off_the_observation_times_are_ignored :
  forall (subject : string) (obs_df : list FhirIo.obs_row)
         (meds_df : list FhirIo.med_row),
    fst (Main.compute_patient_sofa subject obs_df
           (Notions.at_observation_times obs_df meds_df))
    = fst (Main.compute_patient_sofa subject obs_df meds_df).
Proof.
  intros subject obs_df meds_df. rewrite !compute_patient_sofa_rows.
  apply flat_map_ext_In. intros t Ht.
  apply step_rows_pressor.
  rewrite (build_pressor_times_instant meds_df),
    (build_pressor_times_instant (Notions.at_observation_times obs_df meds_df)).
  rewrite filter_instant_at_observation_times; [done|].
  exact (proj1 (round_times_members _ _) Ht).
Qed.

Section Batch.
Import PyStr Utils Scoring FhirIo Main Rules Notions.
Local Open Scope string_scope.
Local Open Scope list_scope.
Variable strptime : string -> string -> result datetime.
Variable fromisoformat : string -> result datetime.
Variable merge_asof :
  list (Z * pyfloat) -> list (Z * pyfloat) -> Z -> list (Z * pyfloat * pyfloat).
Variable fetch_observations_for_subject : string -> result (list observation).
Variable fetch_medication_administrations_for_subject :
  string -> result (list medication).

Lemma collect_frames_ok_iff (subjects : list string) :
  (exists all_rows,
     collect_frames strptime fromisoformat merge_asof
       fetch_observations_for_subject fetch_medication_administrations_for_subject
       subjects = Ok all_rows)
  <-> Forall (fun sub =>
                exists r,
                  compute_patient_sofa_subject strptime fromisoformat merge_asof
                    fetch_observations_for_subject
                    fetch_medication_administrations_for_subject sub = Ok r)
             subjects.
Proof.
  induction subjects as [|sub rest IH]; cbn [collect_frames].
  - split; [constructor | by exists []].
  - destruct (compute_patient_sofa_subject _ _ _ _ _ sub) as [r|e] eqn:Hr;
      cbn [mbind result_bind].
    + destruct (collect_frames _ _ _ _ _ rest) as [all_rows|e];
        cbn [mbind result_bind].
      * split; [|by eexists]. intros _. constructor; [by exists r|].
        apply IH. by exists all_rows.
      * split; [by intros [? ?]|].
        intros [_ Hrest%IH]%Forall_cons. by destruct Hrest.
    + split; [by intros [? ?]|]. intros [[r Hr'] _]%Forall_cons. congruence.
Qed.

(** The frame of [main] holds the rows of the subjects, in order. *)
Lemma collect_frames_concat (subjects : list string) : forall all_rows,
  collect_frames strptime fromisoformat merge_asof
    fetch_observations_for_subject fetch_medication_administrations_for_subject
    subjects = Ok all_rows ->
  concat all_rows
  = flat_map (fun sub =>
                match compute_patient_sofa_subject strptime fromisoformat merge_asof
                        fetch_observations_for_subject
                        fetch_medication_administrations_for_subject sub with
                | Ok r => fst r
                | Raise _ => []
                end) subjects.
Proof.
  induction subjects as [|sub rest IH]; intros all_rows; cbn [collect_frames].
  - by intros [= <-].
  - cbn [flat_map].
    destruct (compute_patient_sofa_subject _ _ _ _ _ sub) as [r|e] eqn:Hr;
      cbn [mbind result_bind]; [|done].
    destruct (collect_frames _ _ _ _ _ rest) as [rows'|e];
      cbn [mbind result_bind]; [|done].
    intros [= <-]. rewrite <- (IH rows' eq_refl).
    destruct (fst r); reflexivity.
Qed.

Lemma run_rows (sub : string) (r : list scored_row * list message) :
  compute_patient_sofa_subject strptime fromisoformat merge_asof
    fetch_observations_for_subject fetch_medication_administrations_for_subject
    sub = Ok r ->
  exists obs_df meds_df, r = compute_patient_sofa sub obs_df meds_df.
Proof.
  unfold compute_patient_sofa_subject.
  destruct (fetch_observations_for_subject sub) as [obs|]; [|done].
  destruct (fetch_medication_administrations_for_subject sub) as [meds|]; [|done].
  cbn [mbind result_bind].
  destruct (observations_to_df _ _ _ obs sub) as [obs_df|]; [|done].
  destruct (medications_to_df _ _ meds sub) as [meds_df|]; [|done].
  cbn [mbind result_bind]. intros [= <-]. by exists obs_df, meds_df.
Qed.

End Batch.

(** X19.  [main] builds its frame exactly when the computation of every
    subject of [SUBJECTS] returns: a request that fails or a time string
    that [parse_time] refuses, for any one subject, makes [main] raise and
    no frame is built.  When it returns, the frame holds the rows of the
    subjects one after the other, in the order of [SUBJECTS]. *)
Theorem main_needs_every_subject :
  forall (strptime : string -> string -> result datetime)
         (fromisoformat : string -> result datetime)
         (merge_asof : list (Z * pyfloat) -> list (Z * pyfloat) -> Z ->
                       list (Z * pyfloat * pyfloat))
         (fetch_obs : string -> result (list FhirIo.observation))
         (fetch_meds : string -> result (list FhirIo.medication)),
    ((exists out, Main.main strptime fromisoformat merge_asof fetch_obs fetch_meds
                  = Ok out)
     <-> forall sub, In sub Main.SUBJECTS ->
           exists r, Main.compute_patient_sofa_subject strptime fromisoformat
                       merge_asof fetch_obs fetch_meds sub = Ok r)
    /\ forall out,
         Main.main strptime fromisoformat merge_asof fetch_obs fetch_meds = Ok out ->
         out = flat_map
                 (fun sub =>
                    match Main.compute_patient_sofa_subject strptime fromisoformat
                            merge_asof fetch_obs fetch_meds sub with
                    | Ok r => fst r
                    | Raise _ => []
                    end) Main.SUBJECTS.
Proof.
  intros strptime fromisoformat merge_asof fetch_obs fetch_meds.
  unfold Main.main. split.
  - rewrite <- List.Forall_forall, <- collect_frames_ok_iff.
    destruct (Main.collect_frames _ _ _ _ _ Main.SUBJECTS) as [all_rows|e] eqn:Hf;
      cbn [mbind result_bind].
    + split; intros _; eexists; first [exact Hf | reflexivity].
    + split; [by intros [? ?]|]. intros [rows Hr].
      first [discriminate Hr | pose proof (eq_trans (eq_sym Hf) Hr); discriminate].
  - intros out.
    destruct (Main.collect_frames _ _ _ _ _ Main.SUBJECTS) as [all_rows|e] eqn:Hf;
      cbn [mbind result_bind]; [|done].
    intros [= <-]. by apply collect_frames_concat.
Qed.

(** Every request is answered and every time string is well formed:
    [main] builds its frame. *)
Lemma main_needs_every_subject_witness :
  exists out, Main.main PyDatetime.strptime PyDatetime.fromisoformat no_join
                server_obs server_meds = Ok out.
Proof.
  apply (proj2 (proj1 (main_needs_every_subject PyDatetime.strptime
                         PyDatetime.fromisoformat no_join server_obs server_meds))).
  intros sub Hin. vm_compute in Hin.
  repeat (destruct Hin as [<-|Hin]; [eexists; vm_compute; reflexivity|]).
  destruct Hin.
Defined.

(** X20.  Every row of the frame that [main] builds belongs to one of the
    subjects of [SUBJECTS] and has a score between 0 and 24, whatever the
    server returns. *)
Theorem main_rows_are_scored_subjects :
  forall (strptime : string -> string -> result datetime)
         (fromisoformat : string -> result datetime)
         (merge_asof : list (Z * pyfloat) -> list (Z * pyfloat) -> Z ->
                       list (Z * pyfloat * pyfloat))
         (fetch_obs : string -> result (list FhirIo.observation))
         (fetch_meds : string -> result (list FhirIo.medication))
         (out : list Main.scored_row),
    Main.main strptime fromisoformat merge_asof fetch_obs fetch_meds = Ok out ->
    Forall (fun r => In (Main.patient_id r) Main.SUBJECTS
                     /\ 0 <= Main.sofa_score r <= 24) out.
Proof.
  intros strptime fromisoformat merge_asof fetch_obs fetch_meds out.
  unfold Main.main.
  destruct (Main.collect_frames _ _ _ _ _ Main.SUBJECTS) as [all_rows|e] eqn:Hf;
    cbn [mbind result_bind]; [|done].
  intros [= <-]. rewrite (collect_frames_concat _ _ _ _ _ _ _ Hf).
  apply List.Forall_forall. intros r (sub & Hsub & Hr)%in_flat_map.
  destruct (Main.compute_patient_sofa_subject _ _ _ _ _ sub) as [res|] eqn:Hrun;
    [|done].
  apply run_rows in Hrun as (obs_df & meds_df & ->).
  rewrite compute_patient_sofa_rows in Hr.
  apply flat_map_step_rows_In in Hr as (_ & Heq & Hz & _).
  split; [by rewrite Heq | done].
Qed.

(** The frame of the server of the examples: one row, of the subject a,
    of score 6. *)
Lemma main_rows_are_scored_subjects_witness :
  exists out,
    Main.main PyDatetime.strptime PyDatetime.fromisoformat no_join
      server_obs server_meds = Ok out
    /\ map (fun r => (Main.patient_id r, Main.sofa_score r)) out = [("a"%string, 6)]
    /\ Forall (fun r => In (Main.patient_id r) Main.SUBJECTS
                        /\ 0 <= Main.sofa_score r <= 24) out.
Proof.
  eexists. split; [vm_compute; reflexivity|]. split; [reflexivity|].
  apply (main_rows_are_scored_subjects PyDatetime.strptime PyDatetime.fromisoformat
           no_join server_obs server_meds).
  vm_compute. reflexivity.
Defined.

Section PrintedLines.
Import PyStr Utils Scoring FhirIo Main Rules Notions.
Local Open Scope string_scope.
Local Open Scope list_scope.



End PrintedLines.



(* ===================================================================== *)
(** ** Strings: further properties *)
(* ===================================================================== *)

Section Substrings.
Import PyStr Utils.
Local Open Scope string_scope.

Lemma prefix_empty (s : string) : String.prefix "" s = true.
Proof. by destruct s. Qed.

Lemma prefix_append (k s post : string) :
  String.prefix k s = true -> String.prefix k (s ++ post) = true.
Proof.
  revert s. induction k as [|c k IH]; intros s; [intros _; apply prefix_empty|].
  destruct s as [|c' s]; [done|].
  change (String c' s ++ post) with (String c' (s ++ post)).
  cbn [String.prefix]. destruct (ascii_dec c c'); [apply IH | done].
Qed.

Lemma contains_append (k s post : string) :
  contains k s = true -> contains k (s ++ post) = true.
Proof.
  induction s as [|c s IH]; cbn [contains append].
  - rewrite orb_false_r. intros Hk.
    destruct k; [by destruct post | done].
  - intros [Hp|Hc]%orb_true_iff.
    + apply orb_true_iff. left. by apply (prefix_append k (String c s) post).
    + apply orb_true_iff. right. by apply IH.
Qed.

Lemma contains_prepend (k pre s : string) :
  contains k s = true -> contains k (pre ++ s) = true.
Proof.
  intros Hk. induction pre as [|c pre IH]; cbn [append]; [done|].
  cbn [contains]. apply orb_true_iff. by right.
Qed.

Lemma lower_append (a b : string) : lower (a ++ b) = lower a ++ lower b.
Proof.
  induction a as [|c a IH]; [done|].
  change (String c a ++ b) with (String c (a ++ b)).
  cbn [lower]. by rewrite IH.
Qed.

Lemma lower_ascii_idemp (c : ascii) : lower_ascii (lower_ascii c) = lower_ascii c.
Proof.
  unfold lower_ascii.
  destruct ((65 <=? nat_of_ascii c)%nat && (nat_of_ascii c <=? 90)%nat) eqn:Hc.
  - apply andb_true_iff in Hc as [H1%Nat.leb_le H2%Nat.leb_le].
    rewrite nat_ascii_embedding by lia.
    destruct (Nat.leb_spec 65 (nat_of_ascii c + 32)),
             (Nat.leb_spec (nat_of_ascii c + 32) 90); cbn [andb]; try done; lia.
  - by rewrite Hc.
Qed.

Lemma lower_idemp (s : string) : lower (lower s) = lower s.
Proof.
  induction s as [|c s IH]; cbn [lower]; [done|].
  by rewrite lower_ascii_idemp, IH.
Qed.

Lemma looks_like_resp_support_iff (text : string) :
  looks_like_resp_support text = true
  <-> exists k, In k VENT_KEYWORDS /\ contains k (lower text) = true.
Proof.
  unfold looks_like_resp_support. destruct text as [|c text].
  - cbn [truthy negb]. split; [done|].
    intros (k & Hk & Hc). cbn in Hk.
    repeat destruct Hk as [<-|Hk]; try done.
  - cbn [truthy negb]. rewrite existsb_exists. done.
Qed.

(** No character [old] in [s]: nothing to replace. *)
Lemma replace_absent (s : string) (old : ascii) (new : string) :
  contains (String old "") s = false -> replace s old new = s.
Proof.
  induction s as [|c s IH]; cbn [contains replace]; [done|].
  intros [Hp Hc]%orb_false_iff. cbn in Hp.
  destruct (ascii_dec old c) as [->|Hne].
  - by destruct s.
  - destruct (Ascii.eqb_spec c old) as [->|_]; [done|]. by rewrite IH.
Qed.

Lemma prefix_rev_app (old : ascii) (s acc : string) :
  String.prefix (String old "") (String.rev_app s acc) = true ->
  contains (String old "") s = true \/ String.prefix (String old "") acc = true.
Proof.
  revert acc. induction s as [|c s IH]; intros acc; cbn [String.rev_app].
  - by right.
  - intros [Hs|Hc]%IH; left; cbn [contains]; apply orb_true_iff.
    + by right.
    + left. cbn in Hc |- *. destruct (ascii_dec old c); [|done]. by destruct s.
Qed.

Lemma endswith_absent (s : string) (old : ascii) :
  contains (String old "") s = false -> endswith s (String old "") = false.
Proof.
  intros Hc. unfold endswith, String.rev. cbn [String.rev_app].
  destruct (String.prefix _ (String.rev_app s "")) eqn:Hp; [|done].
  apply prefix_rev_app in Hp as [Hs|Hacc]; [congruence | done].
Qed.

End Substrings.

(** X22.  [looks_like_resp_support] holds exactly when the text, in lower
    case, contains one of the keywords; the letter case of a text does
    not matter, and a text that is recognised stays recognised with any
    text before and after it. *)
Theorem looks_like_resp_support_is_a_substring_test :
  forall (text : string),
    (Utils.looks_like_resp_support text = true
     <-> exists k, In k Utils.VENT_KEYWORDS
                   /\ PyStr.contains k (PyStr.lower text) = true)
    /\ Utils.looks_like_resp_support (PyStr.lower text)
       = Utils.looks_like_resp_support text
    /\ (forall pre post,
          Utils.looks_like_resp_support text = true ->
          Utils.looks_like_resp_support (pre ++ text ++ post) = true).
Proof.
  intros text. split; [apply looks_like_resp_support_iff|]. split.
  - apply eq_true_iff_eq. rewrite !looks_like_resp_support_iff.
    by rewrite lower_idemp.
  - intros pre post (k & Hk & Hc)%looks_like_resp_support_iff.
    apply looks_like_resp_support_iff. exists k. split; [done|].
    rewrite !lower_append. by apply contains_prepend, contains_append.
Qed.

Lemma looks_like_resp_support_is_a_substring_test_witness :
  Utils.looks_like_resp_support ("Patient on " ++ "BiPAP" ++ " overnight") = true.
Proof.
  apply (proj2 (proj2 (looks_like_resp_support_is_a_substring_test "BiPAP"))
           "Patient on " " overnight")%string.
  reflexivity.
Defined.

(** X23.  A time string without the letter Z goes to [fromisoformat] as
    it is, and the result or the exception of [fromisoformat] is that of
    [parse_time]; [strptime] has no part in it. *)
Theorem parse_time_without_marker :
  forall (strptime : string -> string -> result datetime)
         (fromisoformat : string -> result datetime) (ts : string),
    PyStr.contains "Z" ts = false ->
    Utils.parse_time strptime fromisoformat ts = fromisoformat ts.
Proof.
  intros strptime fromisoformat ts Hz.
  rewrite parse_time_generic by (by apply endswith_absent).
  by rewrite replace_absent.
Qed.

Lemma parse_time_without_marker_witness :
  Utils.parse_time (fun _ _ => Raise ValueError) PyDatetime.fromisoformat
    "2024-01-01T12:00:00+02:00"
  = PyDatetime.fromisoformat "2024-01-01T12:00:00+02:00".
Proof. apply parse_time_without_marker. reflexivity. Defined.
